(** * Hide N' Seek: the undo journal and the dispatch logic that feeds it

    A shallow embedding of [hns/fs.py] and [hns/sanitizer.py], with the flag
    handling of [hns/sanitizer_menu.py] and the one-shot mode of [hns/cli.py].

    - Paths are component lists, as [pathlib.Path] normalises them; a
      component [..] is kept as it is written and not followed to the
      parent.
    - The file system is an ordered store of (path, node) bindings; the store
      order is the order in which the operating system enumerates entries
      ([iterdir], [rglob], [os.walk]).
    - The history file [~/.hns_history.json] is a separate component of the
      world: [None] while the file does not exist, [Some entries] otherwise.
    - Python exceptions are an error type; every operation is a function from
      a world to an outcome and the world it leaves behind, so that the
      mutations performed before an exception was raised stay visible. *)

From Stdlib Require Import String Ascii List ZArith Bool Lia FinFun.
Import ListNotations.
Open Scope string_scope.
Open Scope Z_scope.

Set Implicit Arguments.

(* ------------------------------------------------------------------------- *)
(** ** Strings, as [str] and [pathlib] use them                              *)
(* ------------------------------------------------------------------------- *)

Module Str.

Definition dot : ascii := "."%char.

(** [s.startswith(".")] *)
Definition startswith_dot (s : string) : bool :=
  match s with
  | String c _ => Ascii.eqb c dot
  | EmptyString => false
  end.

(** [s.lstrip(".")] *)
Fixpoint lstrip_dot (s : string) : string :=
  match s with
  | String c s' => if Ascii.eqb c dot then lstrip_dot s' else s
  | EmptyString => EmptyString
  end.

(** [s.rfind(".")], [None] standing for Python's [-1]. *)
Fixpoint rfind_dot (s : string) : option nat :=
  match s with
  | EmptyString => None
  | String c s' =>
      match rfind_dot s' with
      | Some i => Some (S i)
      | None => if Ascii.eqb c dot then Some O else None
      end
  end.

Definition lower_ascii (c : ascii) : ascii :=
  let n := nat_of_ascii c in
  if (Nat.leb 65 n && Nat.leb n 90)%bool then ascii_of_nat (n + 32) else c.

(** [s.lower()] on the ASCII range. *)
Fixpoint lower (s : string) : string :=
  match s with
  | EmptyString => EmptyString
  | String c s' => String (lower_ascii c) (lower s')
  end.

(** [sep.join(l)] *)
Fixpoint join (sep : string) (l : list string) : string :=
  match l with
  | [] => ""
  | [x] => x
  | x :: l' => x ++ sep ++ join sep l'
  end.

Definition digit (n : nat) : ascii := ascii_of_nat (48 + n).

Fixpoint digits_fuel (fuel : nat) (n : nat) (acc : string) : string :=
  match fuel with
  | O => acc
  | S fuel' =>
      let acc' := String (digit (n mod 10)) acc in
      if Nat.ltb n 10 then acc' else digits_fuel fuel' (n / 10) acc'
  end.

(** [str(n)] for a natural number. *)
Definition of_nat (n : nat) : string := digits_fuel (S n) n "".

Fixpoint zeros (k : nat) : string :=
  match k with
  | O => ""
  | S k' => String "0"%char (zeros k')
  end.

(** [f"{n:0wd}"] for a non-negative [n]; a negative [n] (never produced by
    the callers here) prints its sign first, as Python does. *)
Definition pad0 (w : nat) (n : Z) : string :=
  if n <? 0 then
    let d := of_nat (Z.to_nat (- n)) in
    "-" ++ zeros (w - 1 - String.length d) ++ d
  else
    let d := of_nat (Z.to_nat n) in
    zeros (w - String.length d) ++ d.

(** White space, as [split] and [rstrip] see it on the ASCII range. *)
Definition is_space (c : ascii) : bool :=
  let n := nat_of_ascii c in
  ((Nat.leb 9 n && Nat.leb n 13) || (Nat.leb 28 n && Nat.leb n 32))%bool.

(** The words of [s], [cur] being the word read so far. *)
Fixpoint split_from (s : string) (cur : string) : list string :=
  match s with
  | EmptyString => if String.eqb cur "" then [] else [cur]
  | String c s' =>
      if is_space c
      then (if String.eqb cur "" then split_from s' ""
            else cur :: split_from s' "")
      else split_from s' (cur ++ String c "")
  end.

(** [s.split()]: the maximal runs of characters that are not white space. *)
Definition split (s : string) : list string := split_from s "".

(** [s.rstrip()] *)
Fixpoint rstrip (s : string) : string :=
  match s with
  | EmptyString => EmptyString
  | String c s' =>
      match rstrip s' with
      | EmptyString => if is_space c then EmptyString else String c EmptyString
      | t => String c t
      end
  end.

(** [sub in s] *)
Fixpoint contains (sub s : string) : bool :=
  (String.prefix sub s
   || match s with
      | String _ s' => contains sub s'
      | EmptyString => false
      end)%bool.

(** [s.endswith(suf)] *)
Definition endswith (s suf : string) : bool :=
  let n := String.length s in
  let k := String.length suf in
  (Nat.leb k n && String.eqb (substring (n - k) k s) suf)%bool.

(** The line feed that ends a line of output. *)
Definition nl : string := String (ascii_of_nat 10) "".

End Str.

(* ------------------------------------------------------------------------- *)
(** ** pathlib                                                               *)
(* ------------------------------------------------------------------------- *)

(** A path is its sequence of components; [[]] is the base directory the
    components are read from (it always exists). *)
Definition Path := list string.

Module pathlib.

Definition eqb (p q : Path) : bool :=
  if list_eq_dec string_dec p q then true else false.

(** [p.name], for a path with a component after the anchor. *)
Definition name (p : Path) : string := last p "".

(** [p.parent] *)
Definition parent (p : Path) : Path := removelast p.

(** [p / s] *)
Definition div (p : Path) (s : string) : Path :=
  if String.eqb s "" then p else (p ++ [s])%list.

(** [p.with_name(s)], for a path [p] that has a name and a name [s] that
    is a single component. *)
Definition with_name (p : Path) (s : string) : Path :=
  (parent p ++ [s])%list.

(** [p.suffix]: the part of the name from its last dot on, when that dot
    is neither the first nor the last character. *)
Definition suffix (p : Path) : string :=
  let n := name p in
  match Str.rfind_dot n with
  | Some i =>
      if (Nat.ltb 0 i && Nat.ltb i (String.length n - 1))%bool
      then substring i (String.length n - i) n
      else ""
  | None => ""
  end.

(** [p.stem] *)
Definition stem (p : Path) : string :=
  let n := name p in
  match Str.rfind_dot n with
  | Some i =>
      if (Nat.ltb 0 i && Nat.ltb i (String.length n - 1))%bool
      then substring 0 i n
      else n
  | None => n
  end.

(** [p.with_stem(s)] *)
Definition with_stem (p : Path) (s : string) : Path :=
  with_name p (s ++ suffix p).

(** [str(p)]: an absolute path has the anchor ["/"] as first component. *)
Definition str (p : Path) : string :=
  match p with
  | [] => "."
  | a :: p' => if String.eqb a "/" then "/" ++ Str.join "/" p'
               else Str.join "/" p
  end.

(** The components of [s] between slashes, [cur] being the component read
    so far, in reverse. *)
Fixpoint split_slash (s : string) (cur : string) : list string :=
  match s with
  | EmptyString => [cur]
  | String c s' =>
      if Ascii.eqb c "/"%char then cur :: split_slash s' ""
      else split_slash s' (cur ++ String c "")
  end.

(** [Path(s)]: empty and ["."] components are dropped, a leading slash
    becomes the anchor. *)
Definition of_str (s : string) : Path :=
  let comps :=
    filter (fun c => negb (String.eqb c "" || String.eqb c "."))
           (split_slash s "") in
  match s with
  | String c _ => if Ascii.eqb c "/"%char then "/" :: comps else comps
  | EmptyString => comps
  end.

(** [q] is [p] or lies below [p]. *)
Fixpoint is_prefix (p q : Path) : bool :=
  match p, q with
  | [], _ => true
  | a :: p', b :: q' => String.eqb a b && is_prefix p' q'
  | _ :: _, [] => false
  end.

(** The prefix [p] of [q] replaced by [p']; [q] itself when [p] is not a
    prefix of it. *)
Definition rebase (p p' q : Path) : Path :=
  if is_prefix p q then (p' ++ skipn (length p) q)%list else q.

End pathlib.


(* ------------------------------------------------------------------------- *)
(** ** datetime                                                              *)
(* ------------------------------------------------------------------------- *)

Module datetime.

Record datetime := mk { year : Z; month : Z; day : Z; second_of_day : Z }.

(** The proleptic Gregorian date of the day [days] days after 1970-01-01. *)
Definition civil_from_days (days : Z) : Z * Z * Z :=
  let z := days + 719468 in
  let era := z / 146097 in
  let doe := z - era * 146097 in
  let yoe := (doe - doe / 1460 + doe / 36524 - doe / 146096) / 365 in
  let y := yoe + era * 400 in
  let doy := doe - (365 * yoe + yoe / 4 - yoe / 100) in
  let mp := (5 * doy + 2) / 153 in
  let d := doy - (153 * mp + 2) / 5 + 1 in
  let m := if mp <? 10 then mp + 3 else mp - 9 in
  (if m <=? 2 then y + 1 else y, m, d).

(** [datetime.fromtimestamp(ts)] in a zone [utcoffset] seconds east of
    UTC; [ts] is in whole seconds, within the years 1 to 9999 that the
    library accepts. *)
Definition fromtimestamp (utcoffset : Z) (ts : Z) : datetime :=
  let t := ts + utcoffset in
  let '(y, m, d) := civil_from_days (t / 86400) in
  mk y m d (t mod 86400).

(** [dt.strftime("%Y-%m-%d")] *)
Definition strftime_Ymd (dt : datetime) : string :=
  Str.pad0 4 (year dt) ++ "-" ++ Str.pad0 2 (month dt) ++ "-"
    ++ Str.pad0 2 (day dt).

End datetime.

(* ------------------------------------------------------------------------- *)
(** ** Exceptions                                                            *)
(* ------------------------------------------------------------------------- *)

Inductive exn : Type :=
| RuntimeError (msg : string)
| FileNotFoundError (p : string)
| FileExistsError (p : string)
| NotADirectoryError (p : string)
| OSError (p : string)
| NotImplementedError (msg : string)
| CalledProcessError (cmd : list string)
| TypeError
| ValueError
| AttributeError (msg : string)
| KeyError (key : string)
| LoopBound.
(** [LoopBound] is not a Python exception: it marks a [while] loop that did
    not finish within the bound the model gives it. *)

(* ------------------------------------------------------------------------- *)
(** ** The file system and the platform primitives                           *)
(* ------------------------------------------------------------------------- *)

Module FileSystem.

Record node := mk_node {
  is_dir : bool;
  content : string;
  st_ctime : Z;
  st_mtime : Z;
  hidden : bool   (* the hidden attribute of macOS and Windows *)
}.

Definition FS := list (Path * node).

Definition dir_node : node := mk_node true "" 0 0 false.

Definition set_hidden (b : bool) (n : node) : node :=
  mk_node (is_dir n) (content n) (st_ctime n) (st_mtime n) b.

Fixpoint lookup (fs : FS) (p : Path) : option node :=
  match fs with
  | [] => None
  | (q, n) :: fs' => if pathlib.eqb q p then Some n else lookup fs' p
  end.

(** The base directory and the anchor are always there. *)
Definition anchored (p : Path) : bool :=
  match p with
  | [] => true
  | [a] => String.eqb a "/"
  | _ => false
  end.

Definition find (fs : FS) (p : Path) : option node :=
  match lookup fs p with
  | Some n => Some n
  | None => if anchored p then Some dir_node else None
  end.

(** [p.exists()] *)
Definition exists_ (fs : FS) (p : Path) : bool :=
  match find fs p with Some _ => true | None => false end.

(** [p.is_file()] *)
Definition is_file (fs : FS) (p : Path) : bool :=
  match find fs p with Some n => negb (is_dir n) | None => false end.

Definition is_directory (fs : FS) (p : Path) : bool :=
  match find fs p with Some n => is_dir n | None => false end.

Definition below (root q : Path) : bool :=
  pathlib.is_prefix root q && negb (pathlib.eqb root q).

Definition child_of (root q : Path) : bool :=
  pathlib.eqb (pathlib.parent q) root && negb (anchored q).

(** [root.iterdir()] *)
Definition iterdir (fs : FS) (root : Path) : exn + list Path :=
  match find fs root with
  | None => inl (FileNotFoundError (pathlib.str root))
  | Some n =>
      if is_dir n
      then inr (map fst (filter (fun e => child_of root (fst e)) fs))
      else inl (NotADirectoryError (pathlib.str root))
  end.

(** [root.rglob("*")] *)
Definition rglob (fs : FS) (root : Path) : list Path :=
  if is_directory fs root
  then map fst (filter (fun e => below root (fst e)) fs)
  else [].

(** The directories [os.walk(root)] visits, top-down; nothing when [root]
    is not a directory ([os.walk] swallows the error of its listing). *)
Definition walk (fs : FS) (root : Path) : list Path :=
  if is_directory fs root
  then root ::
       map fst (filter (fun e => below root (fst e) && is_dir (snd e)) fs)
  else [].

Definition has_entries (fs : FS) (p : Path) : bool :=
  existsb (fun e => child_of p (fst e)) fs.

(** The triples of [os.walk(root, topdown=False)], as (directory, whether
    its listing was empty).  A directory is listed before its
    sub-directories are walked and reported after them, so the listings are
    those of the tree the walk started on. *)
Definition walk_bottom_up (fs : FS) (root : Path) : list (Path * bool) :=
  map (fun p => (p, negb (has_entries fs p))) (rev (walk fs root)).

(** Every binding at or below [src] moves to the same place at or below
    [dst]. *)
Definition rebase_all (src dst : Path) (fs : FS) : FS :=
  map (fun e => (pathlib.rebase src dst (fst e), snd e)) fs.

Definition remove (p : Path) (fs : FS) : FS :=
  filter (fun e => negb (pathlib.eqb (fst e) p)) fs.

(** [src.rename(dst)] (POSIX [rename(2)]).  The node moves with its times as
    they are; the change time, which the operating system sets anew on a
    rename, is not tracked. *)
Definition rename (src dst : Path) (fs : FS) : exn + FS :=
  match find fs src with
  | None => inl (FileNotFoundError (pathlib.str src))
  | Some n =>
      if negb (is_directory fs (pathlib.parent dst))
      then inl (FileNotFoundError (pathlib.str dst))
      else
        match find fs dst with
        | None => inr (rebase_all src dst fs)
        | Some m =>
            if is_dir m || is_dir n || anchored dst
            then inl (OSError (pathlib.str dst))
            else inr (rebase_all src dst (remove dst fs))
        end
  end.

(** The non-empty prefixes of [p], shortest first. *)
Fixpoint prefixes (p : Path) : list Path :=
  match p with
  | [] => []
  | a :: p' => [a] :: map (cons a) (prefixes p')
  end.

Fixpoint mkdirs (ps : list Path) (fs : FS) : exn + FS :=
  match ps with
  | [] => inr fs
  | q :: ps' =>
      match find fs q with
      | Some n =>
          if is_dir n then mkdirs ps' fs
          else inl (FileExistsError (pathlib.str q))
      | None => mkdirs ps' (fs ++ [(q, dir_node)])%list
      end
  end.

(** [p.mkdir(parents=True, exist_ok=True)] *)
Definition mkdir_parents (p : Path) (fs : FS) : exn + FS :=
  mkdirs (prefixes p) fs.

(** [p.rmdir()] *)
Definition rmdir (p : Path) (fs : FS) : exn + FS :=
  match find fs p with
  | None => inl (FileNotFoundError (pathlib.str p))
  | Some n =>
      if negb (is_dir n) then inl (NotADirectoryError (pathlib.str p))
      else if has_entries fs p || anchored p
           then inl (OSError (pathlib.str p))
           else inr (remove p fs)
  end.

(** The hidden attribute of [p] set to [b], and that of everything below
    [p] when [recursive]. *)
Definition set_visibility (recursive : bool) (b : bool) (p : Path) (fs : FS)
  : FS :=
  map (fun e =>
         if pathlib.eqb (fst e) p || (recursive && below p (fst e))
         then (fst e, set_hidden b (snd e)) else e) fs.

(** [mv src dst]: a rename; into [dst] when [dst] is a directory. *)
Definition mv (cmd : list string) (src dst : Path) (fs : FS) : exn + FS :=
  let fail := inl (CalledProcessError cmd) in
  match find fs src with
  | None => fail
  | Some n =>
      if anchored src then fail else
      match find fs dst with
      | None =>
          if is_directory fs (pathlib.parent dst)
          then inr (rebase_all src dst fs) else fail
      | Some m =>
          if is_dir m then
            let dst' := pathlib.div dst (pathlib.name src) in
            if exists_ fs dst' || pathlib.is_prefix src dst then fail
            else inr (rebase_all src dst' fs)
          else if is_dir n then fail
               else inr (rebase_all src dst (remove dst fs))
      end
  end.

(** [chflags [-R] hidden|nohidden p] and [attrib +h|-h [/s /d] p]. *)
Definition flag_command (cmd : list string) (recursive : bool)
           (b : option bool) (p : Path) (fs : FS) : exn + FS :=
  match b, lookup fs p with
  | Some b, Some _ => inr (set_visibility recursive b p fs)
  | _, _ => inl (CalledProcessError cmd)
  end.

Definition chflags_flag (s : string) : option bool :=
  if String.eqb s "hidden" then Some true
  else if String.eqb s "nohidden" then Some false else None.

Definition attrib_flag (s : string) : option bool :=
  if String.eqb s "+h" then Some true
  else if String.eqb s "-h" then Some false else None.

(** [subprocess.run(cmd, check=True)]: the three commands the program
    issues; a non-zero exit status is [CalledProcessError]. *)
Definition subprocess_run (cmd : list string) (fs : FS) : exn + FS :=
  match cmd with
  | [c; a; b] =>
      if String.eqb c "mv" then mv cmd (pathlib.of_str a) (pathlib.of_str b) fs
      else if String.eqb c "chflags"
      then flag_command cmd false (chflags_flag a) (pathlib.of_str b) fs
      else if String.eqb c "attrib"
      then flag_command cmd false (attrib_flag a) (pathlib.of_str b) fs
      else inl (CalledProcessError cmd)
  | [c; r; a; b] =>
      if String.eqb c "chflags" && String.eqb r "-R"
      then flag_command cmd true (chflags_flag a) (pathlib.of_str b) fs
      else inl (CalledProcessError cmd)
  | [c; a; s; d; b] =>
      if String.eqb c "attrib" && String.eqb s "/s" && String.eqb d "/d"
      then flag_command cmd true (attrib_flag a) (pathlib.of_str b) fs
      else inl (CalledProcessError cmd)
  | _ => inl (CalledProcessError cmd)
  end.

(** The line [ls -ldO a] prints for the entry [n] named [a] on the command
    line: mode, links, owner, group, file flags, size, date, and the name as
    it was given.  The kind of the entry and its flag [hidden] come from the
    node; the other columns are not modelled and print a fixed text. *)
Definition ls_ldO_line (n : node) (a : string) : string :=
  (if is_dir n then "drwxr-xr-x" else "-rw-r--r--") ++ "  1 user  staff  "
    ++ (if hidden n then "hidden" else "-") ++ " 0 Jan  1 00:00 " ++ a
    ++ Str.nl.

(** The line [attrib a] prints: the attribute letters in their columns
    ([A] on a file, [H] on a hidden entry), then the name. *)
Definition attrib_line (n : node) (a : string) : string :=
  (if is_dir n then " " else "A") ++ "    "
    ++ (if hidden n then "H" else " ") ++ "       " ++ a ++ Str.nl.

(** [subprocess.run(cmd, capture_output=True, text=True, check=True).stdout]
    for the two queries the program issues. *)
Definition subprocess_stdout (cmd : list string) (fs : FS) : exn + string :=
  match cmd with
  | [c; o; a] =>
      if String.eqb c "ls" && String.eqb o "-ldO"
      then match find fs (pathlib.of_str a) with
           | Some n => inr (ls_ldO_line n a)
           | None => inl (CalledProcessError cmd)
           end
      else inl (CalledProcessError cmd)
  | [c; a] =>
      if String.eqb c "attrib"
      then match find fs (pathlib.of_str a) with
           | Some n => inr (attrib_line n a)
           | None => inl (CalledProcessError cmd)
           end
      else inl (CalledProcessError cmd)
  | _ => inl (CalledProcessError cmd)
  end.

End FileSystem.

(* ------------------------------------------------------------------------- *)
(** ** The journal and the world                                             *)
(* ------------------------------------------------------------------------- *)

(** [fs.Action]: one hide/seek operation.  Time stamps are whole seconds. *)
Record Action := mk_Action {
  timestamp : Z;
  path : string;
  op : string;          (* 'hide' or 'seek' *)
  recursive : bool
}.

(** [sanitizer._Move] *)
Record _Move := mk_Move { src : string; dst : string }.

(** [sanitizer._HistoryEntry] *)
Record _HistoryEntry := mk_HistoryEntry {
  h_timestamp : Z;
  h_op : string;        (* "sanitize" *)
  root : string;
  moves : list _Move
}.

(** An element of the history file: the dictionary [asdict] makes of an
    [Action] or of a [_HistoryEntry]. *)
Inductive entry : Type :=
| ActionDict (a : Action)
| HistoryDict (h : _HistoryEntry).

(** [e["op"]] *)
Definition entry_op (e : entry) : string :=
  match e with
  | ActionDict a => op a
  | HistoryDict h => h_op h
  end.

Record world := mk_world {
  w_fs : FileSystem.FS;
  w_history : option (list entry);   (* the content of HISTORY_FILE *)
  w_stdout : list string
}.

(** A computation: its outcome and the world it leaves. *)
Definition M (A : Type) : Type := world -> (exn + A) * world.

Definition ret {A} (a : A) : M A := fun w => (inr a, w).

Definition raise {A} (e : exn) : M A := fun w => (inl e, w).

Definition bind {A B} (m : M A) (k : A -> M B) : M B :=
  fun w =>
    match m w with
    | (inr a, w') => k a w'
    | (inl e, w') => (inl e, w')
    end.

Notation "x <- m ;; k" := (bind m (fun x => k))
  (at level 61, m at next level, right associativity).
Notation "m ;; k" := (bind m (fun _ => k))
  (at level 61, right associativity).

(** A primitive acting on the file system. *)
Definition on_fs (f : FileSystem.FS -> exn + FileSystem.FS) : M unit :=
  fun w =>
    match f (w_fs w) with
    | inr fs' => (inr tt, mk_world fs' (w_history w) (w_stdout w))
    | inl e => (inl e, w)
    end.

(** A query of the file system. *)
Definition ask_fs {A} (f : FileSystem.FS -> A) : M A :=
  fun w => (inr (f (w_fs w)), w).

Definition lift {A} (r : exn + A) : M A :=
  fun w => (r, w).

(** [print(line)] *)
Definition print (line : string) : M unit :=
  fun w => (inr tt, mk_world (w_fs w) (w_history w) (w_stdout w ++ [line])%list).

(** [for x in l: body(x)] *)
Fixpoint for_each {A} (l : list A) (body : A -> M unit) : M unit :=
  match l with
  | [] => ret tt
  | x :: l' => body x ;; for_each l' body
  end.

(** [l.pop()]: the list without its last element, and that element. *)
Fixpoint pop {A} (l : list A) : option (list A * A) :=
  match l with
  | [] => None
  | x :: l' =>
      match pop l' with
      | None => Some ([], x)
      | Some (r, y) => Some (x :: r, y)
      end
  end.

(** [l.pop(i)] for [i] in range. *)
Fixpoint pop_at {A} (i : nat) (l : list A) {struct l}
  : option (list A * A) :=
  match l, i with
  | [], _ => None
  | x :: l', O => Some (l', x)
  | x :: l', S i' =>
      match pop_at i' l' with
      | None => None
      | Some (r, y) => Some (x :: r, y)
      end
  end.

(* ------------------------------------------------------------------------- *)
(** ** hns/fs.py                                                             *)
(* ------------------------------------------------------------------------- *)

Module fs.

Definition _load_history : M (list entry) :=
  fun w => (inr (match w_history w with Some l => l | None => [] end), w).

Definition _save_history (entries : list entry) : M unit :=
  fun w => (inr tt, mk_world (w_fs w) (Some entries) (w_stdout w)).

Definition _record_action (action : Action) : M unit :=
  entries <- _load_history ;;
  _save_history (entries ++ [ActionDict action])%list.

(** [Action.inverse], [now] being what [time.time()] returns. *)
Definition inverse (now : Z) (self : Action) : Action :=
  mk_Action now (path self)
            (if String.eqb (op self) "hide" then "seek" else "hide")
            (recursive self).

(** The construction of an [Action] from the dictionary [d] by keyword
    arguments: the keys of [d] must be the fields of [Action]. *)
Definition Action_of (d : entry) : M Action :=
  match d with
  | ActionDict a => ret a
  | HistoryDict _ => raise TypeError
  end.

Definition _run (cmd : list string) (dry_run : bool) : M unit :=
  if dry_run then print ("[DRY-RUN] " ++ Str.join " " cmd)
  else on_fs (FileSystem.subprocess_run cmd).

Definition _macos (action : Action) (dry_run : bool) : M unit :=
  let flag := if String.eqb (op action) "hide" then "hidden" else "nohidden" in
  let cmd := ["chflags"] in
  let cmd := if recursive action then (cmd ++ ["-R"])%list else cmd in
  let cmd := (cmd ++ [flag; path action])%list in
  _run cmd dry_run.

Definition _linux_hide_path (path : Path) (dry_run : bool) : M unit :=
  if Str.startswith_dot (pathlib.name path) then ret tt  (* already hidden *)
  else
    let target := pathlib.with_name path ("." ++ pathlib.name path) in
    _run ["mv"; pathlib.str path; pathlib.str target] dry_run.

Definition _linux_seek_path (path : Path) (dry_run : bool) : M unit :=
  if negb (Str.startswith_dot (pathlib.name path)) then ret tt  (* visible *)
  else
    let target := pathlib.with_name path (Str.lstrip_dot (pathlib.name path)) in
    _run ["mv"; pathlib.str path; pathlib.str target] dry_run.

(** [os.walk] yields each directory as a [str], and so does this list. *)
Definition _descend_dirs (root : Path) : M (list string) :=
  ask_fs (fun fs =>
    tl (map pathlib.str (FileSystem.walk fs root))).  (* skip root itself *)

(** [_linux_hide_path] and [_linux_seek_path] called on such a [str]: the
    first thing either does is read [path.name], which a [str] does not
    have. *)
Definition _linux_hide_path_str (path : string) (dry_run : bool) : M unit :=
  raise (AttributeError "'str' object has no attribute 'name'").

Definition _linux_seek_path_str (path : string) (dry_run : bool) : M unit :=
  raise (AttributeError "'str' object has no attribute 'name'").

Definition _linux (action : Action) (dry_run : bool) : M unit :=
  let p := pathlib.of_str (path action) in
  ex <- ask_fs (fun fs => FileSystem.exists_ fs p) ;;
  if negb ex then raise (FileNotFoundError (path action))
  else if String.eqb (op action) "hide" then
    _linux_hide_path p dry_run ;;
    if recursive action then
      subs <- _descend_dirs p ;;
      for_each subs (fun sub => _linux_hide_path_str sub dry_run)
    else ret tt
  else
    _linux_seek_path p dry_run ;;
    if recursive action then
      subs <- _descend_dirs p ;;
      for_each subs (fun sub => _linux_seek_path_str sub dry_run)
    else ret tt.

Definition _windows (action : Action) (dry_run : bool) : M unit :=
  let flag := if String.eqb (op action) "hide" then "+h" else "-h" in
  let cmd := ["attrib"; flag] in
  let cmd := if recursive action then (cmd ++ ["/s"; "/d"])%list else cmd in
  let cmd := (cmd ++ [path action])%list in
  _run cmd dry_run.

Section Platform.

(** [platform.system()]: 'Darwin', 'Linux', 'Windows', ... *)
Variable SYSTEM : string.

Definition _dispatch (action : Action) (dry_run : bool) : M unit :=
  (if String.eqb SYSTEM "Darwin" then _macos action dry_run
   else if String.eqb SYSTEM "Linux" then _linux action dry_run
   else if String.eqb SYSTEM "Windows" then _windows action dry_run
   else raise (NotImplementedError ("Unsupported OS: " ++ SYSTEM))) ;;
  if negb dry_run then _record_action action else ret tt.

(** [now] is what [time.time()] returns during the call. *)
Definition revert_last_change (now : Z) (dry_run : bool) : M unit :=
  entries <- _load_history ;;
  match pop entries with
  | None => raise (RuntimeError "No actions to revert.")
  | Some (entries, d) =>
      last <- Action_of d ;;
      let inverse := inverse now last in
      (* Perform inverse operation *)
      _dispatch inverse dry_run ;;
      (* Pop the reverted action off history only if it succeeded *)
      if negb dry_run then _save_history entries else ret tt
  end.

Definition hide (now : Z) (path : string) (recursive dry_run : bool)
  : M unit :=
  _dispatch (mk_Action now path "hide" recursive) dry_run.

Definition seek (now : Z) (path : string) (recursive dry_run : bool)
  : M unit :=
  _dispatch (mk_Action now path "seek" recursive) dry_run.

Definition is_hidden (path : string) : M bool :=
  let p := pathlib.of_str path in
  ex <- ask_fs (fun fs => FileSystem.exists_ fs p) ;;
  if negb ex then raise (FileNotFoundError path)
  else if String.eqb SYSTEM "Darwin" then
    fs <- ask_fs (fun fs => fs) ;;
    stdout <- lift (FileSystem.subprocess_stdout
                      ["ls"; "-ldO"; pathlib.str p] fs) ;;
    ret (existsb (String.eqb "hidden") (Str.split stdout))
  else if String.eqb SYSTEM "Linux" then
    ret (Str.startswith_dot (pathlib.name p))
  else if String.eqb SYSTEM "Windows" then
    fs <- ask_fs (fun fs => fs) ;;
    stdout <- lift (FileSystem.subprocess_stdout
                      ["attrib"; pathlib.str p] fs) ;;
    ret (Str.contains " H " stdout
         || Str.endswith (Str.rstrip stdout) "H")
  else ret false.  (* Fallback *)

End Platform.

End fs.

(* ------------------------------------------------------------------------- *)
(** ** hns/sanitizer.py                                                      *)
(* ------------------------------------------------------------------------- *)

Module sanitizer.

Record SanitizerOptions := mk_opts {
  (* Naming *)
  sani_name : bool;          (* rename to [NNN_DDMMYY] *)
  (* Sorting *)
  sort_by_type : bool;
  sort_by_date : bool;
  (* Metadata *)
  keep_date_saved : bool;    (* mod-time *)
  keep_date_created : bool;  (* c-time *)
  (* Behaviour *)
  recursive : bool;
  cleanup_empty : bool;
  dry_run : bool
}.

(** The defaults of the dataclass: every flag off. *)
Definition default_opts : SanitizerOptions :=
  mk_opts false false false false false false false false.

(* History persistence (shared with fs.py) *)

Definition _load_history : M (list entry) :=
  fun w => (inr (match w_history w with Some l => l | None => [] end), w).

Definition _save_history (entries : list entry) : M unit :=
  fun w => (inr tt, mk_world (w_fs w) (Some entries) (w_stdout w)).

Definition _record_history (e : _HistoryEntry) : M unit :=
  entries <- _load_history ;;
  _save_history (entries ++ [HistoryDict e])%list.

(* Internals *)

Definition _gather_files (root : Path) (recursive : bool) : M (list Path) :=
  fun w =>
    let fs := w_fs w in
    if recursive
    then (inr (filter (FileSystem.is_file fs) (FileSystem.rglob fs root)), w)
    else match FileSystem.iterdir fs root with
         | inr l => (inr (filter (FileSystem.is_file fs) l), w)
         | inl e => (inl e, w)
         end.

(** [file.stat()] *)
Definition stat (fs : FileSystem.FS) (file : Path) : exn + FileSystem.node :=
  match FileSystem.find fs file with
  | Some n => inr n
  | None => inl (FileNotFoundError (pathlib.str file))
  end.

Section Environment.

(** [TODAY]: the day the module was loaded, as DDMMYY. *)
Variable TODAY : string.
(** The local time zone, in seconds east of UTC. *)
Variable utcoffset : Z.

Definition _file_date (fs : FileSystem.FS) (file : Path)
           (opts : SanitizerOptions) : exn + datetime.datetime :=
  match stat fs file with
  | inl e => inl e
  | inr st =>
      let ts := if keep_date_saved opts then FileSystem.st_mtime st
                else FileSystem.st_ctime st in
      inr (datetime.fromtimestamp utcoffset ts)
  end.

(** Compute destination path for [file] according to options; [rand] is
    what [random.randint(0, 999)] returns when it is drawn. *)
Definition _target_path (fs : FileSystem.FS) (rand : Z) (file root : Path)
           (opts : SanitizerOptions) : exn + Path :=
  (* Determine base folder (sorting) *)
  let base := root in
  let base :=
    if sort_by_type opts
    then pathlib.div base (Str.lower (Str.lstrip_dot (pathlib.suffix file)))
    else base in
  let base :=
    if sort_by_date opts then
      match _file_date fs file opts with
      | inl e => inl e
      | inr dt =>
          let date_folder := datetime.strftime_Ymd dt in
          inr (if sort_by_type opts then pathlib.div base date_folder
               else pathlib.div base date_folder)
      end
    else inr base in
  match base with
  | inl e => inl e
  | inr base =>
      (* Determine filename *)
      let new_name :=
        if sani_name opts then
          let rand := Str.pad0 3 rand in
          rand ++ "_" ++ TODAY ++ Str.lower (pathlib.suffix file)
        else pathlib.name file in
      inr (pathlib.div base new_name)
  end.

(** The loop of [sanitize] that plans the moves; [i] counts the files
    seen so far, the [i]-th file drawing [rng i]. *)
Fixpoint plan_moves (fs : FileSystem.FS) (rng : nat -> Z) (i : nat)
         (files : list Path) (root : Path) (opts : SanitizerOptions)
  : exn + list _Move :=
  match files with
  | [] => inr []
  | file :: files' =>
      match _target_path fs (rng i) file root opts with
      | inl e => inl e
      | inr dst =>
          match plan_moves fs rng (S i) files' root opts with
          | inl e => inl e
          | inr moves =>
              if pathlib.eqb dst file then inr moves
              else inr (mk_Move (pathlib.str file) (pathlib.str dst) :: moves)
          end
      end
  end.

End Environment.

(** The [while] loop of [_unique_path]. *)
Fixpoint _unique_path_loop (bound : nat) (fs : FileSystem.FS) (path : Path)
         (candidate : Path) (counter : nat) : option Path :=
  match bound with
  | O => None
  | S bound' =>
      if FileSystem.exists_ fs candidate then
        _unique_path_loop bound' fs path
          (pathlib.with_stem path
             (pathlib.stem path ++ "_" ++ Str.of_nat counter))
          (S counter)
      else Some candidate
  end.

(** Ensure [path] is unique, appending _1, _2 ... if needed.  A store of
    [n] bindings cannot hold all of [n + 2] candidates. *)
Definition _unique_path (fs : FileSystem.FS) (path : Path) : option Path :=
  _unique_path_loop (2 + length fs) fs path path 1.

Definition _apply_move (src dst : Path) (dry_run : bool) : M unit :=
  if dry_run then
    print ("[DRY-RUN] " ++ pathlib.str src ++ " → " ++ pathlib.str dst)
  else
    on_fs (FileSystem.mkdir_parents (pathlib.parent dst)) ;;
    fs <- ask_fs (fun fs => fs) ;;
    match _unique_path fs dst with
    | None => raise LoopBound
    | Some dst => on_fs (FileSystem.rename src dst)
    end.

Definition _cleanup_empty_dirs (root : Path) (dry_run : bool) : M unit :=
  triples <- ask_fs (fun fs => FileSystem.walk_bottom_up fs root) ;;
  for_each triples (fun t =>
    let p := fst t in
    if pathlib.eqb p root then ret tt
    else if snd t then
      if dry_run then print ("[DRY-RUN] rmdir " ++ pathlib.str p)
      else on_fs (FileSystem.rmdir p)
    else ret tt).

(** [max(i for i, e in enumerate(entries) if e["op"] == "sanitize")],
    [None] when no index qualifies; [i] is the index of the head. *)
Fixpoint last_sanitize_index (i : nat) (entries : list entry) : option nat :=
  match entries with
  | [] => None
  | e :: entries' =>
      match last_sanitize_index (S i) entries' with
      | Some j => Some j
      | None => if String.eqb (entry_op e) "sanitize" then Some i else None
      end
  end.

(** [entry["moves"]] *)
Definition entry_moves (e : entry) : M (list _Move) :=
  match e with
  | HistoryDict h => ret (moves h)
  | ActionDict _ => raise (KeyError "moves")
  end.

(* Public API *)

Section Environment.

Variable TODAY : string.
Variable utcoffset : Z.

(** Perform sanitisation on [root] according to [opts].  The model has no
    working directory, home directory or symbolic link to resolve a root
    against: it takes [Path(root)] for [Path(root).expanduser().resolve()],
    which is what the code computes for the roots that satisfy [resolved]
    below (absolute, without [..]).  [now] is what [time.time()] returns and
    [rng] what the successive draws of [random.randint(0, 999)] return. *)
Definition sanitize (now : Z) (rng : nat -> Z) (root : string)
           (opts : SanitizerOptions) : M unit :=
  let path := pathlib.of_str root in
  ex <- ask_fs (fun fs => FileSystem.exists_ fs path) ;;
  if negb ex then raise (FileNotFoundError (pathlib.str path))
  else
    (* Collect targets *)
    files <- _gather_files path (recursive opts) ;;
    match files with
    | [] => ret tt  (* nothing to do *)
    | _ :: _ =>
        fs <- ask_fs (fun fs => fs) ;;
        moves <- lift (plan_moves TODAY utcoffset fs rng 0 files path opts) ;;
        (* Execute (or preview) *)
        for_each moves (fun mv =>
          _apply_move (pathlib.of_str (src mv)) (pathlib.of_str (dst mv))
                      (dry_run opts)) ;;
        (* Cleanup empties *)
        (if cleanup_empty opts
         then _cleanup_empty_dirs path (dry_run opts) else ret tt) ;;
        (* Record history *)
        if negb (dry_run opts) && negb (match moves with [] => true | _ => false end)
        then _record_history
               (mk_HistoryEntry now "sanitize" (pathlib.str path) moves)
        else ret tt
    end.

End Environment.

(** Undo the most recent sanitise action. *)
Definition revert_last_sanitize (dry_run : bool) : M unit :=
  entries <- _load_history ;;
  match entries with
  | [] => raise (RuntimeError "No history available.")
  | _ :: _ =>
      match last_sanitize_index 0 entries with
      | None => raise ValueError
      | Some last_idx =>
          match pop_at last_idx entries with
          | None => raise ValueError
          | Some (entries, entry) =>
              moves <- entry_moves entry ;;
              for_each (rev moves) (fun mv =>   (* reverse order *)
                _apply_move (pathlib.of_str (dst mv))
                            (pathlib.of_str (src mv)) dry_run) ;;
              if negb dry_run then _save_history entries else ret tt
          end
      end
  end.

End sanitizer.

(* ------------------------------------------------------------------------- *)
(** ** hns/sanitizer_menu.py                                                 *)
(* ------------------------------------------------------------------------- *)

(** The flags of the interactive session, [to_opts], and the three
    sub-menus that toggle flags under a lock.  A menu reads its choices from
    the lines typed at the prompt; what it draws on the console is left
    out. *)
Module sanitizer_menu.

Record _State := mk_State {
  (* Meta - FileName *)
  sani_name : bool;
  fname_lock : bool;
  (* Meta - Date *)
  date_saved : bool;
  date_created : bool;
  date_lock : bool;
  (* Master toggle *)
  complete_sanitize : bool;
  recursive : bool;
  (* SaniSort *)
  sort_filetype : bool;
  sort_date : bool;
  sort_recursive : bool;
  cleanup : bool;
  sort_lock : bool
}.

(** [S = _State()]: every flag off. *)
Definition S0 : _State :=
  mk_State false false false false false false false false false false false
           false.

(** Convert current flags to SanitizerOptions for the backend. *)
Definition to_opts (self : _State) : sanitizer.SanitizerOptions :=
  if complete_sanitize self then
    (* strict preset *)
    sanitizer.mk_opts true true true false false true true false
  else
    sanitizer.mk_opts
      (sani_name self && negb (fname_lock self))
      (sort_filetype self && negb (sort_lock self))
      (sort_date self && negb (sort_lock self))
      (date_saved self && negb (date_lock self))
      (date_created self && negb (date_lock self))
      (recursive self || sort_recursive self)
      (cleanup self)
      false.

Definition is_space (c : ascii) : bool :=
  let n := nat_of_ascii c in
  (Nat.leb 9 n && Nat.leb n 13) || (Nat.leb 28 n && Nat.leb n 32).

Fixpoint lstrip (s : string) : string :=
  match s with
  | String c s' => if is_space c then lstrip s' else s
  | EmptyString => EmptyString
  end.

Fixpoint rstrip (s : string) : string :=
  match s with
  | EmptyString => EmptyString
  | String c s' =>
      match rstrip s' with
      | EmptyString => if is_space c then EmptyString else String c EmptyString
      | t => String c t
      end
  end.

(** [line.strip().lower()], on the ASCII range. *)
Definition choice_of (line : string) : string :=
  Str.lower (rstrip (lstrip line)).

Definition set_fname (name lock : bool) (S : _State) : _State :=
  mk_State name lock (date_saved S) (date_created S) (date_lock S)
           (complete_sanitize S) (recursive S) (sort_filetype S) (sort_date S)
           (sort_recursive S) (cleanup S) (sort_lock S).

Definition set_date (saved created lock : bool) (S : _State) : _State :=
  mk_State (sani_name S) (fname_lock S) saved created lock
           (complete_sanitize S) (recursive S) (sort_filetype S) (sort_date S)
           (sort_recursive S) (cleanup S) (sort_lock S).

Definition set_sort (filetype date lock : bool) (S : _State) : _State :=
  mk_State (sani_name S) (fname_lock S) (date_saved S) (date_created S)
           (date_lock S) (complete_sanitize S) (recursive S) filetype date
           (sort_recursive S) (cleanup S) lock.

(** The loop of [_toggle_fname_sub] over the lines typed: the state it
    leaves, and the lines not read yet when 'q' ended it ([None] when the
    input ended first and the prompt raised). *)
Fixpoint _toggle_fname_sub (inputs : list string) (S : _State)
  : _State * option (list string) :=
  match inputs with
  | [] => (S, None)
  | line :: rest =>
      let choice := choice_of line in
      if String.eqb choice "1" && negb (fname_lock S) then
        _toggle_fname_sub rest (set_fname (negb (sani_name S)) (fname_lock S) S)
      else if String.eqb choice "2" then
        let lock := negb (fname_lock S) in
        _toggle_fname_sub rest
          (set_fname (if lock then false else sani_name S) lock S)
      else if String.eqb choice "q" then (S, Some rest)
      else _toggle_fname_sub rest S
  end.

Fixpoint _toggle_date_sub (inputs : list string) (S : _State)
  : _State * option (list string) :=
  match inputs with
  | [] => (S, None)
  | line :: rest =>
      let choice := choice_of line in
      if String.eqb choice "1" && negb (date_lock S) then
        _toggle_date_sub rest
          (set_date (negb (date_saved S)) (date_created S) (date_lock S) S)
      else if String.eqb choice "2" && negb (date_lock S) then
        _toggle_date_sub rest
          (set_date (date_saved S) (negb (date_created S)) (date_lock S) S)
      else if String.eqb choice "3" then
        let lock := negb (date_lock S) in
        _toggle_date_sub rest
          (set_date (if lock then false else date_saved S)
                    (if lock then false else date_created S) lock S)
      else if String.eqb choice "q" then (S, Some rest)
      else _toggle_date_sub rest S
  end.

Fixpoint _toggle_sort_sub (inputs : list string) (S : _State)
  : _State * option (list string) :=
  match inputs with
  | [] => (S, None)
  | line :: rest =>
      let choice := choice_of line in
      if String.eqb choice "1" && negb (sort_lock S) then
        _toggle_sort_sub rest
          (set_sort (negb (sort_filetype S)) (sort_date S) (sort_lock S) S)
      else if String.eqb choice "2" && negb (sort_lock S) then
        _toggle_sort_sub rest
          (set_sort (sort_filetype S) (negb (sort_date S)) (sort_lock S) S)
      else if String.eqb choice "3" then
        let lock := negb (sort_lock S) in
        _toggle_sort_sub rest
          (set_sort (if lock then false else sort_filetype S)
                    (if lock then false else sort_date S) lock S)
      else if String.eqb choice "q" then (S, Some rest)
      else _toggle_sort_sub rest S
  end.

End sanitizer_menu.

(* ------------------------------------------------------------------------- *)
(** ** hns/cli.py                                                            *)
(* ------------------------------------------------------------------------- *)

Module cli.




End cli.

(* ------------------------------------------------------------------------- *)
(** ** What a computation does to the world                                  *)
(* ------------------------------------------------------------------------- *)

Definition outcome {A} (m : M A) (w : world) : exn + A := fst (m w).

Definition after {A} (m : M A) (w : world) : world := snd (m w).

(** The entries of the history file, as both [_load_history] read them. *)
Definition journal (w : world) : list entry :=
  match w_history w with Some l => l | None => [] end.

(** [m] writes neither the file system nor the history file. *)
Definition preserves_store {A} (m : M A) : Prop :=
  forall w, w_fs (after m w) = w_fs w /\ w_history (after m w) = w_history w.

(** [m] does not write the history file. *)
Definition keeps_history {A} (m : M A) : Prop :=
  forall w, w_history (after m w) = w_history w.

(** The branch of [fs._dispatch] that reaches the operating system. *)
Definition os_call (SYSTEM : string) (action : Action) (dry_run : bool)
  : M unit :=
  if String.eqb SYSTEM "Darwin" then fs._macos action dry_run
  else if String.eqb SYSTEM "Linux" then fs._linux action dry_run
  else if String.eqb SYSTEM "Windows" then fs._windows action dry_run
  else raise (NotImplementedError ("Unsupported OS: " ++ SYSTEM)).

(** The loop of [sanitizer.revert_last_sanitize] over the recorded moves. *)
Definition replay_reversed (moves : list _Move) (dry_run : bool) : M unit :=
  for_each (rev moves) (fun mv =>
    sanitizer._apply_move (pathlib.of_str (dst mv)) (pathlib.of_str (src mv))
                          dry_run).


Definition with_history (h : option (list entry)) (w : world) : world :=
  mk_world (w_fs w) h (w_stdout w).

(* ------------------------------------------------------------------------- *)
(** ** Specification predicates                                              *)
(* ------------------------------------------------------------------------- *)

Open Scope list_scope.

(** The file system and the history file are the same in [w'] as in [w]. *)
Definition unchanged (w w' : world) : Prop :=
  w_fs w' = w_fs w /\ w_history w' = w_history w.

(** [m] raises without having written the history file, and when it returns
    it has left the file alone or appended one entry satisfying [P]. *)
Definition appends_on_success (P : entry -> Prop) (m : M unit) : Prop :=
  forall w,
    match m w with
    | (inl _, w') => w_history w' = w_history w
    | (inr _, w') =>
        w_history w' = w_history w \/
        exists e, P e /\ w_history w' = Some (journal w ++ [e])
    end.

(** An exception of [m] leaves the history file as it was. *)
Definition history_kept_on_error {A} (m : M A) : Prop :=
  forall w e w', m w = (inl e, w') -> w_history w' = w_history w.

(** The entry [sanitize] records: tagged "sanitize", for the resolved root,
    with a non-empty list of moves. *)
Definition sanitize_entry (now : Z) (root : string) (e : entry) : Prop :=
  exists moves,
    moves <> [] /\
    e = HistoryDict (mk_HistoryEntry now "sanitize"
                       (pathlib.str (pathlib.of_str root)) moves).

(** A path without [..] among its components: the entry it names is the
    one the store binds to these components. *)
Definition direct (p : Path) : bool :=
  forallb (fun c => negb (String.eqb c "..")) p.

(** The roots that [Path(root).expanduser().resolve()] returns as they are:
    absolute and direct.  (The store holds no symbolic link, and a home
    directory is expanded in a relative path only.) *)
Definition resolved (p : Path) : bool :=
  match p with
  | a :: l => String.eqb a "/" && direct l
  | [] => false
  end.



(** Every entry is the dictionary of a hide or seek action. *)
Definition only_visibility_actions (l : list entry) : Prop :=
  forall e, In e l ->
    exists a, e = ActionDict a /\ (op a = "hide" \/ op a = "seek")%string.

(** The undo [undo] takes the entry at the final position of the journal:
    it returns, and the journal it leaves is the old one without its last
    entry. *)
Definition undo_pops_final (undo : M unit) (w : world) : Prop :=
  exists rest d,
    pop (journal w) = Some (rest, d) /\
    outcome undo w = inr tt /\ journal (after undo w) = rest.

(** What [is_hidden(p)] answers after [run] and the undo of it is what it
    answered before [run]. *)
Definition undo_restores_is_hidden (SYSTEM : string) (run : M unit)
           (p : string) (now : Z) (w : world) : Prop :=
  outcome (fs.is_hidden SYSTEM p)
          (after (run ;; fs.revert_last_change SYSTEM now false) w) =
  outcome (fs.is_hidden SYSTEM p) w.

(** What [is_hidden(p)] answers after [hide(p, r)] and [seek(p, r)] is what
    it answered before the two calls. *)
Definition hide_seek_restores_is_hidden (SYSTEM : string) (p : string)
           (r : bool) (now1 now2 : Z) (w : world) : Prop :=
  outcome (fs.is_hidden SYSTEM p)
          (after (fs.hide SYSTEM now1 p r false ;;
                  fs.seek SYSTEM now2 p r false) w) =
  outcome (fs.is_hidden SYSTEM p) w.

(** The platforms that keep visibility in an attribute of the entry. *)
Definition attribute_platform (SYSTEM : string) : Prop :=
  SYSTEM = "Darwin"%string \/ SYSTEM = "Windows"%string.

(** The candidates [_unique_path] tries after [path] itself. *)
Definition candidate (path : Path) (k : nat) : Path :=
  pathlib.with_stem path (pathlib.stem path ++ "_" ++ Str.of_nat k)%string.


(** An entry as the two engines write it: an action tagged 'hide' or
    'seek', or a batch tagged "sanitize" with at least one move. *)
Definition entry_wf (e : entry) : Prop :=
  match e with
  | ActionDict a => op a = "hide"%string \/ op a = "seek"%string
  | HistoryDict h => h_op h = "sanitize"%string /\ moves h <> []
  end.

(** [SYSTEM] is none of the three platforms [_dispatch] knows. *)
Definition unsupported (SYSTEM : string) : Prop :=
  SYSTEM <> "Darwin"%string /\ SYSTEM <> "Linux"%string /\
  SYSTEM <> "Windows"%string.

(** [s] has a slash in it. *)
Fixpoint has_slash (s : string) : bool :=
  match s with
  | EmptyString => false
  | String c s' => Ascii.eqb c "/"%char || has_slash s'
  end.

(** A component as [Path] keeps it: not empty, not ["."], without slash. *)
Definition clean_component (c : string) : bool :=
  negb (String.eqb c "" || String.eqb c ".") && negb (has_slash c).

(** The paths [Path(s)] produces: clean components, after the anchor when
    the path is absolute. *)
Definition normal (p : Path) : bool :=
  match p with
  | [] => true
  | a :: l => (String.eqb a "/" || clean_component a)
              && forallb clean_component l
  end.


(** While a lock of the session is on, the flags under it are off. *)
Definition locks_respected (S : sanitizer_menu._State) : Prop :=
  (sanitizer_menu.fname_lock S = true -> sanitizer_menu.sani_name S = false) /\
  (sanitizer_menu.date_lock S = true ->
   sanitizer_menu.date_saved S = false /\
   sanitizer_menu.date_created S = false) /\
  (sanitizer_menu.sort_lock S = true ->
   sanitizer_menu.sort_filetype S = false /\
   sanitizer_menu.sort_date S = false).

(* ------------------------------------------------------------------------- *)
(** ** Scenarios                                                             *)
(* ------------------------------------------------------------------------- *)

Module Scenario.

Definition dir : FileSystem.node := FileSystem.dir_node.

Definition hidden_dir : FileSystem.node :=
  FileSystem.set_hidden true FileSystem.dir_node.

Definition file (content : string) (ctime mtime : Z) : FileSystem.node :=
  FileSystem.mk_node false content ctime mtime false.

Definition fresh (fs : FileSystem.FS) : world := mk_world fs None [].

(** A directory [demo] with one empty sub-directory. *)
Definition demo : world := fresh [(["demo"], dir); (["demo"; "child"], dir)].

(** [demo] carrying the hidden attribute already. *)
Definition demo_hidden : world := fresh [(["demo"], hidden_dir)].

(** A dot-prefixed directory, hidden in the sense of Linux. *)
Definition dot_demo : world := fresh [([".demo"], dir)].

(** [/root] holding [a.txt] and [b.jpg]. *)
Definition two_files (a b : FileSystem.node) : FileSystem.FS :=
  [(["/"; "root"], dir);
   (["/"; "root"; "a.txt"], a);
   (["/"; "root"; "b.jpg"], b)].

(** [{sort_by_type: true, sort_by_date: true, rename: false}], the other
    flags at their defaults. *)
Definition by_type_and_date : sanitizer.SanitizerOptions :=
  sanitizer.mk_opts false true true false false false false false.

Definition noon_2024_01_01 : Z := 1704110400.

(** [/root] holding [x/a.txt] and [y/a.txt]: sorted by type, both go to
    [/root/txt/a.txt]. *)
Definition same_name : world :=
  fresh [(["/"; "root"], dir);
         (["/"; "root"; "x"], dir);
         (["/"; "root"; "y"], dir);
         (["/"; "root"; "x"; "a.txt"], file "X" 0 0);
         (["/"; "root"; "y"; "a.txt"], file "Y" 0 0)].

Definition by_type_recursive : sanitizer.SanitizerOptions :=
  sanitizer.mk_opts false true false false false true false false.

Definition by_type : sanitizer.SanitizerOptions :=
  sanitizer.mk_opts false true false false false false false false.

Definition dry (o : sanitizer.SanitizerOptions) : sanitizer.SanitizerOptions :=
  sanitizer.mk_opts (sanitizer.sani_name o) (sanitizer.sort_by_type o)
    (sanitizer.sort_by_date o) (sanitizer.keep_date_saved o)
    (sanitizer.keep_date_created o) (sanitizer.recursive o)
    (sanitizer.cleanup_empty o) true.

Definition no_rng : nat -> Z := fun _ => 0.

(** [/root/a.txt] and a directory [demo], first sanitized by type and then
    [demo] hidden (macOS): the journal is a sanitize entry followed by an
    action. *)
Definition sanitize_then_hide : world :=
  after (sanitizer.sanitize "010124" 0 10 no_rng "/root" by_type ;;
         fs.hide "Darwin" 11 "demo" false false)
        (fresh [(["/"; "root"], dir);
                (["/"; "root"; "a.txt"], file "A" 0 0);
                (["demo"], dir)]).

(** The same two operations in the other order: the journal is an action
    followed by a sanitize entry. *)
Definition hide_then_sanitize : world :=
  after (fs.hide "Darwin" 10 "demo" false false ;;
         sanitizer.sanitize "010124" 0 11 no_rng "/root" by_type)
        (fresh [(["/"; "root"], dir);
                (["/"; "root"; "a.txt"], file "A" 0 0);
                (["demo"], dir)]).

(** [demo] after [hide("demo")] on Linux: renamed to [.demo], the action
    recorded under the old name. *)
Definition linux_hidden : world :=
  after (fs.hide "Linux" 1 "demo" false false) demo.


(** [/root] holding directories only. *)
Definition only_directories : world :=
  fresh [(["/"; "root"], dir);
         (["/"; "root"; "empty"], dir);
         (["/"; "root"; "empty"; "deeper"], dir)].

(** Every flag of the policy on, except dry-run. *)
Definition everything : sanitizer.SanitizerOptions :=
  sanitizer.mk_opts true true true true true true true false.


(** [same_name] after a recursive sanitize by type. *)
Definition collided : world :=
  after (sanitizer.sanitize "010124" 0 5 no_rng "/root" by_type_recursive)
        same_name.

End Scenario.
(* ========================================================================= *)
(** * Properties                                                             *)
(* ========================================================================= *)

Unset Implicit Arguments.

(** ** Frame lemmas of the monad *)

Section Frames.

Context {A B : Type}.

Lemma preserves_ret (a : A) : preserves_store (ret a).
Proof. intros w; split; reflexivity. Qed.

Lemma preserves_raise (e : exn) : preserves_store (@raise A e).
Proof. intros w; split; reflexivity. Qed.

Lemma preserves_lift (r : exn + A) : preserves_store (lift r).
Proof. intros w; split; reflexivity. Qed.

Lemma preserves_ask_fs (f : FileSystem.FS -> A) : preserves_store (ask_fs f).
Proof. intros w; split; reflexivity. Qed.

Lemma preserves_bind (m : M A) (k : A -> M B) :
  preserves_store m -> (forall a, preserves_store (k a)) ->
  preserves_store (bind m k).
Proof.
  intros Hm Hk w. unfold after, bind.
  specialize (Hm w). unfold after in Hm.
  destruct (m w) as [[e | a] w1]; simpl in *; [exact Hm |].
  destruct (Hk a w1) as [Hf Hh]. unfold after in Hf, Hh.
  destruct Hm as [Hf1 Hh1]. split; congruence.
Qed.

Lemma keeps_ret (a : A) : keeps_history (ret a).
Proof. intros w; reflexivity. Qed.

Lemma keeps_raise (e : exn) : keeps_history (@raise A e).
Proof. intros w; reflexivity. Qed.

Lemma keeps_ask_fs (f : FileSystem.FS -> A) : keeps_history (ask_fs f).
Proof. intros w; reflexivity. Qed.

Lemma keeps_bind (m : M A) (k : A -> M B) :
  keeps_history m -> (forall a, keeps_history (k a)) ->
  keeps_history (bind m k).
Proof.
  intros Hm Hk w. unfold after, bind.
  specialize (Hm w). unfold after in Hm.
  destruct (m w) as [[e | a] w1]; simpl in *; [exact Hm |].
  specialize (Hk a w1). unfold after in Hk. congruence.
Qed.

Lemma preserves_keeps (m : M A) : preserves_store m -> keeps_history m.
Proof. intros H w. apply H. Qed.

End Frames.

Lemma preserves_print (line : string) : preserves_store (print line).
Proof. intros w; split; reflexivity. Qed.

Lemma keeps_on_fs (f : FileSystem.FS -> exn + FileSystem.FS) :
  keeps_history (on_fs f).
Proof.
  intros w. unfold after, on_fs. destruct (f (w_fs w)); reflexivity.
Qed.

Lemma preserves_for_each {A} (l : list A) (body : A -> M unit) :
  (forall x, preserves_store (body x)) -> preserves_store (for_each l body).
Proof.
  intros Hb. induction l as [| x l IH]; simpl.
  - apply preserves_ret.
  - apply preserves_bind; [apply Hb | intros _; exact IH].
Qed.

Lemma keeps_for_each {A} (l : list A) (body : A -> M unit) :
  (forall x, keeps_history (body x)) -> keeps_history (for_each l body).
Proof.
  intros Hb. induction l as [| x l IH]; simpl.
  - apply keeps_ret.
  - apply keeps_bind; [apply Hb | intros _; exact IH].
Qed.

Lemma preserves_load_fs : preserves_store fs._load_history.
Proof. intros w; split; reflexivity. Qed.

Lemma preserves_load_sanitizer : preserves_store sanitizer._load_history.
Proof. intros w; split; reflexivity. Qed.

Create HintDb frame.

#[local] Hint Resolve preserves_ret preserves_raise preserves_lift
  preserves_ask_fs preserves_print preserves_load_fs preserves_load_sanitizer
  : frame.
#[local] Hint Resolve keeps_ret keeps_raise keeps_ask_fs keeps_on_fs : frame.

(** Splits a goal about a composed computation along its binds, loops and
    conditionals. *)
Ltac frame :=
  repeat first
    [ progress auto with frame
    | apply preserves_bind; [| intro]
    | apply keeps_bind; [| intro]
    | apply preserves_for_each; intro
    | apply keeps_for_each; intro
    | match goal with
      | |- context [if ?b then _ else _] => destruct b
      | |- context [match ?x with _ => _ end] => destruct x
      end ].

(** ** The dry-run paths write nothing *)

Lemma run_dry (cmd : list string) : preserves_store (fs._run cmd true).
Proof. unfold fs._run. frame. Qed.

Lemma linux_hide_path_dry (p : Path) : preserves_store (fs._linux_hide_path p true).
Proof. unfold fs._linux_hide_path, fs._run. frame. Qed.

Lemma linux_seek_path_dry (p : Path) : preserves_store (fs._linux_seek_path p true).
Proof. unfold fs._linux_seek_path, fs._run. frame. Qed.

Lemma os_call_dry (SYSTEM : string) (a : Action) :
  preserves_store (os_call SYSTEM a true).
Proof.
  unfold os_call, fs._macos, fs._windows, fs._linux, fs._descend_dirs, fs._run,
    fs._linux_hide_path_str, fs._linux_seek_path_str.
  pose proof linux_hide_path_dry. pose proof linux_seek_path_dry.
  frame.
Qed.

Lemma dispatch_dry (SYSTEM : string) (a : Action) :
  preserves_store (fs._dispatch SYSTEM a true).
Proof.
  change (preserves_store (os_call SYSTEM a true ;; ret tt)).
  apply preserves_bind; [apply os_call_dry | intros; apply preserves_ret].
Qed.

Lemma apply_move_dry (s d : Path) : preserves_store (sanitizer._apply_move s d true).
Proof. unfold sanitizer._apply_move. frame. Qed.

Lemma cleanup_dry (root : Path) :
  preserves_store (sanitizer._cleanup_empty_dirs root true).
Proof. unfold sanitizer._cleanup_empty_dirs. frame. Qed.

Lemma gather_files_preserves (root : Path) (r : bool) :
  preserves_store (sanitizer._gather_files root r).
Proof.
  intros w. unfold after, sanitizer._gather_files.
  destruct r; [split; reflexivity |].
  destruct (FileSystem.iterdir (w_fs w) root); split; reflexivity.
Qed.

Lemma entry_moves_preserves (e : entry) : preserves_store (sanitizer.entry_moves e).
Proof. destruct e; simpl; auto with frame. Qed.

Lemma sanitize_dry (TODAY : string) (utcoffset now : Z) (rng : nat -> Z)
      (root : string) (opts : sanitizer.SanitizerOptions) :
  sanitizer.dry_run opts = true ->
  preserves_store (sanitizer.sanitize TODAY utcoffset now rng root opts).
Proof.
  intros Hd. unfold sanitizer.sanitize. rewrite Hd. simpl.
  pose proof apply_move_dry. pose proof cleanup_dry.
  pose proof gather_files_preserves.
  frame.
Qed.

Lemma revert_last_change_dry (SYSTEM : string) (now : Z) :
  preserves_store (fs.revert_last_change SYSTEM now true).
Proof.
  unfold fs.revert_last_change, fs.Action_of. simpl.
  pose proof dispatch_dry.
  frame.
Qed.

Lemma revert_last_sanitize_dry : preserves_store (sanitizer.revert_last_sanitize true).
Proof.
  unfold sanitizer.revert_last_sanitize. simpl.
  pose proof apply_move_dry. pose proof entry_moves_preserves.
  frame.
Qed.

(** C5.  Every operation of the command surface, invoked with
    [dry_run = true], leaves the file system and the persisted history file
    exactly as they were: hide, seek, sanitize, revert_last_change and
    revert_last_sanitize, on every platform and in every world, whatever
    their outcome. *)
Theorem C5_dry_run_changes_nothing :
  forall (SYSTEM TODAY : string) (utcoffset now : Z) (rng : nat -> Z)
         (p root : string) (r : bool) (opts : sanitizer.SanitizerOptions)
         (w : world),
    sanitizer.dry_run opts = true ->
    unchanged w (after (fs.hide SYSTEM now p r true) w) /\
    unchanged w (after (fs.seek SYSTEM now p r true) w) /\
    unchanged w (after (sanitizer.sanitize TODAY utcoffset now rng root opts) w) /\
    unchanged w (after (fs.revert_last_change SYSTEM now true) w) /\
    unchanged w (after (sanitizer.revert_last_sanitize true) w).
Proof.
  intros SYSTEM TODAY utcoffset now rng p root r opts w Hd.
  split; [exact (dispatch_dry SYSTEM (mk_Action now p "hide" r) w) |].
  split; [exact (dispatch_dry SYSTEM (mk_Action now p "seek" r) w) |].
  split; [exact (sanitize_dry TODAY utcoffset now rng root opts Hd w) |].
  split; [exact (revert_last_change_dry SYSTEM now w) |].
  exact (revert_last_sanitize_dry w).
Qed.

(** ** The history file is written last *)

Lemma journal_of_history (w w' : world) :
  w_history w' = w_history w -> journal w' = journal w.
Proof. unfold journal. intros ->. reflexivity. Qed.

Lemma appends_bind {A} (P : entry -> Prop) (m : M A) (k : A -> M unit) :
  keeps_history m -> (forall a, appends_on_success P (k a)) ->
  appends_on_success P (bind m k).
Proof.
  intros Hm Hk w. unfold bind.
  specialize (Hm w). unfold after in Hm.
  destruct (m w) as [[e | a] w1]; simpl in Hm; [exact Hm |].
  specialize (Hk a w1). destruct (k a w1) as [[e | u] w2].
  - congruence.
  - rewrite (journal_of_history _ _ Hm) in Hk. rewrite Hm in Hk. exact Hk.
Qed.

Lemma appends_of_keeps (P : entry -> Prop) (m : M unit) :
  keeps_history m -> appends_on_success P m.
Proof.
  intros Hm w. specialize (Hm w). unfold after in Hm.
  destruct (m w) as [[e | u] w1]; simpl in Hm; auto.
Qed.


Lemma kept_of_keeps {A} (m : M A) : keeps_history m -> history_kept_on_error m.
Proof.
  intros Hm w e w' E. specialize (Hm w). unfold after in Hm.
  rewrite E in Hm. exact Hm.
Qed.

Lemma kept_bind {A B} (m : M A) (k : A -> M B) :
  keeps_history m -> (forall a, history_kept_on_error (k a)) ->
  history_kept_on_error (bind m k).
Proof.
  intros Hm Hk w e w' E. unfold bind in E.
  specialize (Hm w). unfold after in Hm.
  destruct (m w) as [[e1 | a] w1]; simpl in Hm.
  - inversion E; subst. exact Hm.
  - rewrite <- Hm. exact (Hk a w1 e w' E).
Qed.

Lemma record_action_spec (a : Action) (w : world) :
  fs._record_action a w =
  (inr tt, with_history (Some (journal w ++ [ActionDict a])) w).
Proof. reflexivity. Qed.

Lemma record_history_spec (h : _HistoryEntry) (w : world) :
  sanitizer._record_history h w =
  (inr tt, with_history (Some (journal w ++ [HistoryDict h])) w).
Proof. reflexivity. Qed.

Lemma run_keeps (cmd : list string) (d : bool) : keeps_history (fs._run cmd d).
Proof.
  unfold fs._run. destruct d; [apply preserves_keeps, preserves_print |].
  apply keeps_on_fs.
Qed.

Lemma linux_hide_path_keeps (p : Path) (d : bool) :
  keeps_history (fs._linux_hide_path p d).
Proof. unfold fs._linux_hide_path. pose proof run_keeps. frame. Qed.

Lemma linux_seek_path_keeps (p : Path) (d : bool) :
  keeps_history (fs._linux_seek_path p d).
Proof. unfold fs._linux_seek_path. pose proof run_keeps. frame. Qed.

(** No platform branch touches the history file. *)
Lemma os_call_keeps (SYSTEM : string) (a : Action) (d : bool) :
  keeps_history (os_call SYSTEM a d).
Proof.
  unfold os_call, fs._macos, fs._windows, fs._linux, fs._descend_dirs,
    fs._linux_hide_path_str, fs._linux_seek_path_str.
  pose proof run_keeps. pose proof linux_hide_path_keeps.
  pose proof linux_seek_path_keeps.
  frame.
Qed.

Lemma dispatch_unfold (SYSTEM : string) (a : Action) (d : bool) :
  fs._dispatch SYSTEM a d =
  (os_call SYSTEM a d ;; if negb d then fs._record_action a else ret tt).
Proof. reflexivity. Qed.

(** [_dispatch], not in dry-run: the outcome of the platform branch decides;
    the action is recorded exactly when the branch returned. *)
Lemma dispatch_spec (SYSTEM : string) (a : Action) (w : world) :
  fs._dispatch SYSTEM a false w =
  match os_call SYSTEM a false w with
  | (inl e, w1) => (inl e, w1)
  | (inr _, w1) =>
      (inr tt, with_history (Some (journal w ++ [ActionDict a])) w1)
  end.
Proof.
  rewrite dispatch_unfold. unfold bind. simpl negb.
  pose proof (os_call_keeps SYSTEM a false w) as Hk. unfold after in Hk.
  destruct (os_call SYSTEM a false w) as [[e | u] w1]; [reflexivity |].
  simpl in Hk. rewrite <- (journal_of_history _ _ Hk). reflexivity.
Qed.

Lemma apply_move_keeps (s d : Path) (dry : bool) :
  keeps_history (sanitizer._apply_move s d dry).
Proof.
  unfold sanitizer._apply_move.
  destruct dry; [apply preserves_keeps, preserves_print |].
  frame.
Qed.

Lemma cleanup_keeps (root : Path) (dry : bool) :
  keeps_history (sanitizer._cleanup_empty_dirs root dry).
Proof.
  unfold sanitizer._cleanup_empty_dirs.
  pose proof (fun l => preserves_keeps _ (preserves_print l)).
  frame.
Qed.

Lemma sanitize_appends (TODAY : string) (utcoffset now : Z) (rng : nat -> Z)
      (root : string) (opts : sanitizer.SanitizerOptions) :
  appends_on_success (sanitize_entry now root)
    (sanitizer.sanitize TODAY utcoffset now rng root opts).
Proof.
  unfold sanitizer.sanitize.
  apply appends_bind; [apply keeps_ask_fs | intros ex].
  destruct (negb ex); [apply appends_of_keeps, keeps_raise |].
  apply appends_bind;
    [apply preserves_keeps, gather_files_preserves | intros files].
  destruct files as [| f0 files]; [apply appends_of_keeps, keeps_ret |].
  apply appends_bind; [apply keeps_ask_fs | intros fs0].
  apply appends_bind; [apply preserves_keeps, preserves_lift | intros moves].
  apply appends_bind;
    [apply keeps_for_each; intros mv; apply apply_move_keeps | intros _].
  apply appends_bind.
  { destruct (sanitizer.cleanup_empty opts);
      [apply cleanup_keeps | apply keeps_ret]. }
  intros _.
  destruct (negb (sanitizer.dry_run opts)); simpl;
    [| apply appends_of_keeps, keeps_ret].
  destruct moves as [| mv moves]; simpl; [apply appends_of_keeps, keeps_ret |].
  intros w. rewrite record_history_spec. right.
  eexists. split; [| reflexivity].
  exists (mv :: moves). split; [discriminate | reflexivity].
Qed.





(** ** Undo *)

Lemma pop_nil_iff {A} (l : list A) : pop l = None <-> l = [].
Proof.
  destruct l as [| x l]; simpl; [tauto |].
  destruct (pop l) as [[r y] |]; split; discriminate.
Qed.

Lemma pop_app {A} (l : list A) (x : A) : pop (l ++ [x]) = Some (l, x).
Proof.
  induction l as [| y l IH]; simpl; [reflexivity |]. rewrite IH. reflexivity.
Qed.

Lemma pop_spec {A} (l r : list A) (x : A) :
  pop l = Some (r, x) -> l = r ++ [x].
Proof.
  revert r. induction l as [| y l IH]; simpl; intros r H; [discriminate |].
  destruct (pop l) as [[r' z] |] eqn:E.
  - inversion H; subst. rewrite (IH r' eq_refl). reflexivity.
  - apply pop_nil_iff in E. subst. inversion H; subst. reflexivity.
Qed.

Lemma pop_at_spec {A} (i : nat) (l r : list A) (x : A) :
  pop_at i l = Some (r, x) ->
  l = firstn i l ++ x :: skipn (S i) l /\ r = firstn i l ++ skipn (S i) l /\
  length (firstn i l) = i.
Proof.
  revert i r. induction l as [| y l IH]; intros i r H; simpl in H.
  - discriminate.
  - destruct i as [| i].
    + inversion H; subst. simpl. auto.
    + destruct (pop_at i l) as [[r' z] |] eqn:E; [| discriminate].
      inversion H; subst. destruct (IH i r' E) as (H1 & H2 & H3).
      change (y :: l = y :: (firstn i l ++ x :: skipn (S i) l) /\
              y :: r' = y :: (firstn i l ++ skipn (S i) l) /\
              S (length (firstn i l)) = S i).
      rewrite <- H1, <- H2, H3. auto.
Qed.

(** The index that [max] returns: the position of the last entry tagged
    "sanitize". *)
Lemma last_sanitize_index_none (i : nat) (l : list entry) :
  sanitizer.last_sanitize_index i l = None <->
  Forall (fun e => entry_op e <> "sanitize"%string) l.
Proof.
  revert i. induction l as [| e l IH]; intros i; simpl.
  - split; auto.
  - destruct (sanitizer.last_sanitize_index (S i) l) eqn:E.
    + split; [discriminate |]. intros H. inversion H; subst.
      apply (IH (S i)) in H3. congruence.
    + destruct (String.eqb_spec (entry_op e) "sanitize").
      * split; [discriminate |]. intros H. inversion H; subst. contradiction.
      * split; [| reflexivity]. intros _. constructor; [assumption |].
        apply (IH (S i)). exact E.
Qed.

Lemma last_sanitize_index_app (i : nat) (before after_ : list entry) (e : entry) :
  entry_op e = "sanitize"%string ->
  Forall (fun e => entry_op e <> "sanitize"%string) after_ ->
  sanitizer.last_sanitize_index i (before ++ e :: after_) =
  Some (i + length before)%nat.
Proof.
  intros He Ha. revert i. induction before as [| b before IH]; intros i; simpl.
  - apply (last_sanitize_index_none (S i)) in Ha. rewrite Ha, He. simpl.
    f_equal. lia.
  - rewrite (IH (S i)). f_equal. lia.
Qed.

Lemma pop_at_app {A} (before after_ : list A) (x : A) :
  pop_at (length before) (before ++ x :: after_) = Some (before ++ after_, x).
Proof.
  induction before as [| b before IH]; simpl; [reflexivity |].
  rewrite IH. reflexivity.
Qed.

Lemma load_fs_spec (w : world) : fs._load_history w = (inr (journal w), w).
Proof. reflexivity. Qed.

Lemma load_sanitizer_spec (w : world) :
  sanitizer._load_history w = (inr (journal w), w).
Proof. reflexivity. Qed.

(** [revert_last_change] on a journal that ends with a visibility action:
    the platform branch runs the inverse; when it raises, so does the undo,
    and when it returns, the history file holds the journal without its last
    entry (the inverse that [_dispatch] recorded is overwritten). *)
Lemma revert_last_change_spec (SYSTEM : string) (now : Z) (w : world)
      (before : list entry) (a : Action) :
  journal w = before ++ [ActionDict a] ->
  fs.revert_last_change SYSTEM now false w =
  match os_call SYSTEM (fs.inverse now a) false w with
  | (inl e, w1) => (inl e, w1)
  | (inr _, w1) => (inr tt, with_history (Some before) w1)
  end.
Proof.
  intros Hj. unfold fs.revert_last_change, bind.
  rewrite load_fs_spec, Hj, pop_app. simpl fs.Action_of. unfold ret at 1.
  rewrite dispatch_spec.
  destruct (os_call SYSTEM (fs.inverse now a) false w) as [[e | u] w1];
    reflexivity.
Qed.

(** [revert_last_sanitize] on a journal whose last entry tagged "sanitize"
    is [h]: the moves of [h] are replayed backwards; when that raises, so does
    the undo, and when it returns, the history file holds the journal without
    [h]. *)
Lemma revert_last_sanitize_spec (w : world) (before after_ : list entry)
      (h : _HistoryEntry) :
  journal w = before ++ HistoryDict h :: after_ ->
  h_op h = "sanitize"%string ->
  Forall (fun e => entry_op e <> "sanitize"%string) after_ ->
  sanitizer.revert_last_sanitize false w =
  match replay_reversed (moves h) false w with
  | (inl e, w1) => (inl e, w1)
  | (inr _, w1) => (inr tt, with_history (Some (before ++ after_)) w1)
  end.
Proof.
  intros Hj Hop Ha. unfold sanitizer.revert_last_sanitize, bind.
  rewrite load_sanitizer_spec, Hj.
  destruct (before ++ HistoryDict h :: after_) as [| e0 l0] eqn:El.
  { destruct before; discriminate. }
  cbv beta iota. rewrite <- El.
  rewrite (last_sanitize_index_app 0 before after_ (HistoryDict h) Hop Ha).
  rewrite Nat.add_0_l, pop_at_app. simpl sanitizer.entry_moves.
  unfold ret at 1. fold (replay_reversed (moves h) false).
  destruct (replay_reversed (moves h) false w) as [[e | u] w1]; reflexivity.
Qed.

Lemma replay_keeps (moves : list _Move) (d : bool) :
  keeps_history (replay_reversed moves d).
Proof.
  unfold replay_reversed. apply keeps_for_each. intros mv.
  apply apply_move_keeps.
Qed.

Lemma revert_last_change_kept (SYSTEM : string) (now : Z) :
  history_kept_on_error (fs.revert_last_change SYSTEM now false).
Proof.
  unfold fs.revert_last_change.
  apply kept_bind; [apply preserves_keeps, preserves_load_fs | intros l].
  destruct (pop l) as [[rest d] |]; [| apply kept_of_keeps, keeps_raise].
  apply kept_bind.
  { destruct d; simpl; [apply keeps_ret | apply keeps_raise]. }
  intros a w e w' E. unfold bind in E. rewrite dispatch_spec in E.
  pose proof (os_call_keeps SYSTEM (fs.inverse now a) false w) as Hk.
  unfold after in Hk.
  destruct (os_call SYSTEM (fs.inverse now a) false w) as [[e1 | u] w1];
    simpl in E, Hk; [| discriminate].
  inversion E; subst. exact Hk.
Qed.

Lemma revert_last_sanitize_kept :
  history_kept_on_error (sanitizer.revert_last_sanitize false).
Proof.
  unfold sanitizer.revert_last_sanitize.
  apply kept_bind; [apply preserves_keeps, preserves_load_sanitizer | intros l].
  destruct l as [| e0 l]; [apply kept_of_keeps, keeps_raise |].
  destruct (sanitizer.last_sanitize_index 0 (e0 :: l));
    [| apply kept_of_keeps, keeps_raise].
  destruct (pop_at n (e0 :: l)) as [[rest d] |];
    [| apply kept_of_keeps, keeps_raise].
  apply kept_bind; [apply preserves_keeps, entry_moves_preserves | intros mvs].
  intros w e w' E. unfold bind in E.
  pose proof (replay_keeps mvs false w) as Hk. unfold after in Hk.
  fold (replay_reversed mvs false) in E.
  destruct (replay_reversed mvs false w) as [[e1 | u] w1];
    simpl in E, Hk; [| discriminate].
  inversion E; subst. exact Hk.
Qed.

(** C7.  When the inverse application performed by a non-dry-run undo raises,
    the undo raises the same exception and the entry it had popped is still
    in the persisted journal: [revert_last_change] for a journal ending with
    an action whose inverse platform call raises, [revert_last_sanitize] for
    the last sanitize entry when the backward replay of its moves raises.
    Whatever exception either undo raises, the history file is the one
    before the call. *)
Theorem C7_failed_undo_keeps_entry :
  forall (SYSTEM : string) (now : Z) (w : world),
    journal w <> [] ->
    (forall before a e w1,
        journal w = before ++ [ActionDict a] ->
        os_call SYSTEM (fs.inverse now a) false w = (inl e, w1) ->
        fs.revert_last_change SYSTEM now false w = (inl e, w1) /\
        w_history w1 = w_history w /\ In (ActionDict a) (journal w1)) /\
    (forall before h after_ e w1,
        journal w = before ++ HistoryDict h :: after_ ->
        h_op h = "sanitize"%string ->
        Forall (fun e => entry_op e <> "sanitize"%string) after_ ->
        replay_reversed (moves h) false w = (inl e, w1) ->
        sanitizer.revert_last_sanitize false w = (inl e, w1) /\
        w_history w1 = w_history w /\ In (HistoryDict h) (journal w1)) /\
    (forall e w1,
        fs.revert_last_change SYSTEM now false w = (inl e, w1) ->
        w_history w1 = w_history w) /\
    (forall e w1,
        sanitizer.revert_last_sanitize false w = (inl e, w1) ->
        w_history w1 = w_history w).
Proof.
  intros SYSTEM now w _. repeat split.
  - rewrite (revert_last_change_spec SYSTEM now w before a H), H0. reflexivity.
  - pose proof (os_call_keeps SYSTEM (fs.inverse now a) false w) as Hk.
    unfold after in Hk. rewrite H0 in Hk. exact Hk.
  - pose proof (os_call_keeps SYSTEM (fs.inverse now a) false w) as Hk.
    unfold after in Hk. rewrite H0 in Hk. simpl in Hk.
    rewrite (journal_of_history _ _ Hk), H. apply in_or_app. right. left.
    reflexivity.
  - rewrite (revert_last_sanitize_spec w before after_ h H H0 H1), H2.
    reflexivity.
  - pose proof (replay_keeps (moves h) false w) as Hk.
    unfold after in Hk. rewrite H2 in Hk. exact Hk.
  - pose proof (replay_keeps (moves h) false w) as Hk.
    unfold after in Hk. rewrite H2 in Hk. simpl in Hk.
    rewrite (journal_of_history _ _ Hk), H. apply in_or_app. right. left.
    reflexivity.
  - intros e w1. apply revert_last_change_kept.
  - intros e w1. apply revert_last_sanitize_kept.
Qed.

(** C9.  On an empty journal both undo operations raise the no-history
    [RuntimeError], in dry-run or not, and leave the world (file system,
    history file, output) exactly as it was. *)
Theorem C9_undo_on_empty_journal :
  forall (SYSTEM : string) (now : Z) (d : bool) (w : world),
    journal w = [] ->
    fs.revert_last_change SYSTEM now d w =
      (inl (RuntimeError "No actions to revert."), w) /\
    sanitizer.revert_last_sanitize d w =
      (inl (RuntimeError "No history available."), w).
Proof.
  intros SYSTEM now d w Hj. split.
  - unfold fs.revert_last_change, bind. rewrite load_fs_spec, Hj. reflexivity.
  - unfold sanitizer.revert_last_sanitize, bind.
    rewrite load_sanitizer_spec, Hj. reflexivity.
Qed.

(** C10.  On a non-empty journal without any sanitize entry (every entry a
    hide/seek action) [revert_last_sanitize] raises [ValueError], which is
    not the no-history [RuntimeError], and the world is exactly as it was: no
    file-system mutation and no write of the history file. *)
Theorem C10_revert_last_sanitize_without_sanitize_entry :
  forall (d : bool) (w : world),
    journal w <> [] ->
    only_visibility_actions (journal w) ->
    sanitizer.revert_last_sanitize d w = (inl ValueError, w) /\
    (forall msg, ValueError <> RuntimeError msg).
Proof.
  intros d w Hne Hall. split; [| discriminate].
  unfold sanitizer.revert_last_sanitize, bind. rewrite load_sanitizer_spec.
  destruct (journal w) as [| e0 l] eqn:Hj; [contradiction |].
  assert (Hn : sanitizer.last_sanitize_index 0 (e0 :: l) = None).
  { apply last_sanitize_index_none. apply Forall_forall. intros e He.
    destruct (Hall e He) as (a & -> & [Ho | Ho]); simpl; rewrite Ho;
      discriminate. }
  rewrite Hn. reflexivity.
Qed.

(** Witness of C5: a recursive dry-run on Linux, and a dry-run sanitize. *)
Lemma C5_dry_run_witness :
  unchanged Scenario.demo
    (after (fs.hide "Linux" 1 "demo" true true) Scenario.demo) /\
  unchanged Scenario.demo
    (after (fs.seek "Linux" 1 "demo" true true) Scenario.demo) /\
  unchanged Scenario.demo
    (after (sanitizer.sanitize "010124" 0 1 Scenario.no_rng "/root"
              (Scenario.dry Scenario.by_type_and_date)) Scenario.demo) /\
  unchanged Scenario.demo
    (after (fs.revert_last_change "Linux" 1 true) Scenario.demo) /\
  unchanged Scenario.demo
    (after (sanitizer.revert_last_sanitize true) Scenario.demo).
Proof.
  exact (C5_dry_run_changes_nothing "Linux" "010124" 0 1 Scenario.no_rng
           "demo" "/root" true (Scenario.dry Scenario.by_type_and_date)
           Scenario.demo eq_refl).
Defined.

(** Witness of C9: the fresh world has no history file. *)
Lemma C9_empty_journal_witness :
  fs.revert_last_change "Linux" 1 false Scenario.demo =
    (inl (RuntimeError "No actions to revert."), Scenario.demo) /\
  sanitizer.revert_last_sanitize false Scenario.demo =
    (inl (RuntimeError "No history available."), Scenario.demo).
Proof.
  exact (C9_undo_on_empty_journal "Linux" 1 false Scenario.demo eq_refl).
Defined.

(** Witness of C10: the journal holds the one hide action. *)
Lemma C10_no_sanitize_entry_witness :
  sanitizer.revert_last_sanitize false Scenario.linux_hidden =
    (inl ValueError, Scenario.linux_hidden) /\
  (forall msg, ValueError <> RuntimeError msg).
Proof.
  apply (C10_revert_last_sanitize_without_sanitize_entry false
           Scenario.linux_hidden).
  - intros H. vm_compute in H. discriminate H.
  - intros e He. vm_compute in He. destruct He as [<- | []].
    eexists. split; [reflexivity | left; reflexivity].
Defined.

(** Witness of C7: on Linux the undo of [hide("demo")] looks for [demo],
    which is [.demo] by now, and raises; and the undo of the sanitize of
    [same_name] raises on its second move.  Both entries stay recorded. *)
Lemma C7_failed_undo_witness :
  (fs.revert_last_change "Linux" 2 false Scenario.linux_hidden =
     (inl (FileNotFoundError "demo"), Scenario.linux_hidden) /\
   In (ActionDict (mk_Action 1 "demo" "hide" false))
      (journal Scenario.linux_hidden)) /\
  (outcome (sanitizer.revert_last_sanitize false) Scenario.collided =
     inl (FileNotFoundError "/root/txt/a.txt") /\
   exists h,
     In (HistoryDict h)
        (journal (after (sanitizer.revert_last_sanitize false)
                        Scenario.collided))).
Proof.
  split.
  - assert (Hne : journal Scenario.linux_hidden <> []).
    { intros H. vm_compute in H. discriminate H. }
    destruct (C7_failed_undo_keeps_entry "Linux" 2 Scenario.linux_hidden Hne)
      as (Ha & _).
    destruct (Ha [] (mk_Action 1 "demo" "hide" false)
                 (FileNotFoundError "demo") Scenario.linux_hidden)
      as (H1 & _ & H3); [reflexivity | reflexivity |].
    split; [exact H1 | exact H3].
  - assert (Hne : journal Scenario.collided <> []).
    { intros H. vm_compute in H. discriminate H. }
    destruct (C7_failed_undo_keeps_entry "Linux" 2 Scenario.collided Hne)
      as (_ & Hs & _).
    set (h := mk_HistoryEntry 5 "sanitize" "/root"
                [mk_Move "/root/x/a.txt" "/root/txt/a.txt";
                 mk_Move "/root/y/a.txt" "/root/txt/a.txt"]).
    destruct (Hs [] h [] (FileNotFoundError "/root/txt/a.txt")
                 (after (replay_reversed (moves h) false) Scenario.collided))
      as (H1 & _ & H3);
      [reflexivity | reflexivity | constructor | vm_compute; reflexivity |].
    split.
    + unfold outcome. rewrite H1. reflexivity.
    + exists h. unfold after at 1. rewrite H1. exact H3.
Defined.

(** ** C2: the batch entry holds the planned moves *)

(** C2 fails in the code.  Two files [x/a.txt] and [y/a.txt] sorted by type
    are both planned for [/root/txt/a.txt]; the second is moved to
    [/root/txt/a_1.txt], and the entry that [sanitize] appends records the
    planned destination for both.  The undo then moves the first file to the
    second file's place and raises on the entry it cannot find: [x/a.txt] is
    not restored, [y/a.txt] holds the content of the other file, and the
    second file stays at [a_1.txt]. *)
Theorem C2_batch_entry_records_planned_destination :
  outcome (sanitizer.sanitize "010124" 0 5 Scenario.no_rng "/root"
             Scenario.by_type_recursive) Scenario.same_name = inr tt /\
  FileSystem.lookup (w_fs Scenario.collided) ["/"; "root"; "txt"; "a.txt"] =
    Some (Scenario.file "X" 0 0) /\
  FileSystem.lookup (w_fs Scenario.collided) ["/"; "root"; "txt"; "a_1.txt"] =
    Some (Scenario.file "Y" 0 0) /\
  journal Scenario.collided =
    [HistoryDict
       (mk_HistoryEntry 5 "sanitize" "/root"
          [mk_Move "/root/x/a.txt" "/root/txt/a.txt";
           mk_Move "/root/y/a.txt" "/root/txt/a.txt"])] /\
  outcome (sanitizer.revert_last_sanitize false) Scenario.collided =
    inl (FileNotFoundError "/root/txt/a.txt") /\
  let undone := after (sanitizer.revert_last_sanitize false) Scenario.collided in
  FileSystem.lookup (w_fs undone) ["/"; "root"; "x"; "a.txt"] = None /\
  FileSystem.lookup (w_fs undone) ["/"; "root"; "y"; "a.txt"] =
    Some (Scenario.file "X" 0 0) /\
  FileSystem.lookup (w_fs undone) ["/"; "root"; "txt"; "a_1.txt"] =
    Some (Scenario.file "Y" 0 0).
Proof. repeat split; vm_compute; reflexivity. Qed.

(** ** C3: two undo operations, one per kind of entry *)

(** Counterexample to C3.  With a sanitize entry followed by a hide action
    in the journal, [revert_last_sanitize] returns and removes the sanitize
    entry at position 0, not the final entry; with the two in the other
    order, [revert_last_change] raises [TypeError] on the final (sanitize)
    entry. *)
Lemma C3_counterexample :
  ~ undo_pops_final (sanitizer.revert_last_sanitize false)
      Scenario.sanitize_then_hide /\
  ~ undo_pops_final (fs.revert_last_change "Darwin" 12 false)
      Scenario.hide_then_sanitize.
Proof.
  split; intros (rest & d & Hp & Ho & Hj).
  - vm_compute in Hp. injection Hp as Hr Hd. rewrite <- Hr in Hj.
    vm_compute in Hj. discriminate Hj.
  - vm_compute in Ho. discriminate Ho.
Qed.

(** C3, amended.  Each undo takes the most recent entry of its own kind.
    [revert_last_change], when the final entry is a visibility action, runs
    the platform call of the flipped operation on the same path and recursive
    flag, and on its return leaves the journal without that final entry (the
    inverse is not appended).  [revert_last_sanitize] takes the last entry
    tagged "sanitize", wherever it sits, replays its moves backwards, and on
    return leaves the journal without that entry, the later entries staying
    in place.  An exception of the replay is raised on as it is. *)
Theorem C3_undo_takes_latest_entry_of_its_kind :
  forall (SYSTEM : string) (now : Z) (w : world),
    (forall before a,
        journal w = before ++ [ActionDict a] ->
        fs.revert_last_change SYSTEM now false w =
        match os_call SYSTEM
                (mk_Action now (path a)
                   (if String.eqb (op a) "hide" then "seek" else "hide")
                   (recursive a)) false w with
        | (inl e, w1) => (inl e, w1)
        | (inr _, w1) => (inr tt, with_history (Some before) w1)
        end) /\
    (forall before h after_,
        journal w = before ++ HistoryDict h :: after_ ->
        h_op h = "sanitize"%string ->
        Forall (fun e => entry_op e <> "sanitize"%string) after_ ->
        sanitizer.revert_last_sanitize false w =
        match replay_reversed (moves h) false w with
        | (inl e, w1) => (inl e, w1)
        | (inr _, w1) => (inr tt, with_history (Some (before ++ after_)) w1)
        end).
Proof.
  intros SYSTEM now w. split.
  - intros before a Hj. apply (revert_last_change_spec SYSTEM now w before a Hj).
  - intros before h after_ Hj Hop Ha.
    apply (revert_last_sanitize_spec w before after_ h Hj Hop Ha).
Qed.

(** Witness of the amended C3, on the two journals of the counterexample:
    the sanitize entry is undone from under the later hide action, and the
    hide action is undone from the end. *)
Lemma C3_undo_witness :
  (outcome (sanitizer.revert_last_sanitize false) Scenario.sanitize_then_hide
     = inr tt /\
   journal (after (sanitizer.revert_last_sanitize false)
                  Scenario.sanitize_then_hide) =
     [ActionDict (mk_Action 11 "demo" "hide" false)]) /\
  (outcome (fs.revert_last_change "Darwin" 12 false) Scenario.sanitize_then_hide
     = inr tt /\
   journal (after (fs.revert_last_change "Darwin" 12 false)
                  Scenario.sanitize_then_hide) =
     [HistoryDict (mk_HistoryEntry 10 "sanitize" "/root"
                     [mk_Move "/root/a.txt" "/root/txt/a.txt"])]).
Proof.
  destruct (C3_undo_takes_latest_entry_of_its_kind "Darwin" 12
              Scenario.sanitize_then_hide) as (Hc & Hs).
  set (h := mk_HistoryEntry 10 "sanitize" "/root"
              [mk_Move "/root/a.txt" "/root/txt/a.txt"]).
  set (a := mk_Action 11 "demo" "hide" false).
  split.
  - specialize (Hs [] h [ActionDict a] eq_refl eq_refl).
    assert (Ha : Forall (fun e => entry_op e <> "sanitize"%string)
                        [ActionDict a]).
    { constructor; [discriminate | constructor]. }
    specialize (Hs Ha). unfold outcome, after. rewrite Hs.
    split; vm_compute; reflexivity.
  - specialize (Hc [HistoryDict h] a eq_refl).
    unfold outcome, after. rewrite Hc. split; vm_compute; reflexivity.
Defined.

(** ** Paths and their strings *)

Lemma append_assoc (s t u : string) : ((s ++ t) ++ u = s ++ (t ++ u))%string.
Proof. induction s as [| c s IH]; simpl; [reflexivity | rewrite IH; reflexivity]. Qed.


Lemma append_nil_r (s : string) : (s ++ "")%string = s.
Proof. induction s as [| c s IH]; simpl; [reflexivity | rewrite IH; reflexivity]. Qed.

Lemma split_slash_no_slash (s cur : string) :
  has_slash s = false -> pathlib.split_slash s cur = [(cur ++ s)%string].
Proof.
  revert cur. induction s as [| c s IH]; intros cur H; simpl in *.
  - rewrite append_nil_r. reflexivity.
  - apply orb_false_elim in H. destruct H as [Hc Hs]. rewrite Hc.
    rewrite (IH _ Hs), append_assoc. reflexivity.
Qed.

Lemma split_slash_at_slash (a rest cur : string) :
  has_slash a = false ->
  pathlib.split_slash (a ++ String "/" rest) cur =
  (cur ++ a)%string :: pathlib.split_slash rest "".
Proof.
  revert cur. induction a as [| c a IH]; intros cur H; simpl in *.
  - rewrite append_nil_r. reflexivity.
  - apply orb_false_elim in H. destruct H as [Hc Ha]. rewrite Hc.
    rewrite (IH _ Ha), append_assoc. reflexivity.
Qed.

Lemma split_slash_join (c : string) (l : list string) :
  forallb (fun x => negb (has_slash x)) (c :: l) = true ->
  pathlib.split_slash (Str.join "/" (c :: l)) "" = c :: l.
Proof.
  revert c. induction l as [| d l IH]; intros c H.
  - simpl in H. rewrite andb_true_r in H. apply negb_true_iff in H.
    simpl. rewrite (split_slash_no_slash c "" H). reflexivity.
  - cbn [forallb] in H. apply andb_prop in H. destruct H as [Hc Hl].
    apply negb_true_iff in Hc.
    change (Str.join "/" (c :: d :: l))
      with (c ++ String "/" (Str.join "/" (d :: l)))%string.
    rewrite (split_slash_at_slash c _ "" Hc), (IH d Hl). reflexivity.
Qed.

Lemma clean_no_slash (l : list string) :
  forallb clean_component l = true ->
  forallb (fun x => negb (has_slash x)) l = true.
Proof.
  induction l as [| c l IH]; simpl; [reflexivity |]. intros H.
  apply andb_prop in H. destruct H as [Hc Hl]. unfold clean_component in Hc.
  apply andb_prop in Hc. destruct Hc as [_ Hc]. rewrite Hc, (IH Hl).
  reflexivity.
Qed.

Lemma filter_clean (l : list string) :
  forallb clean_component l = true ->
  filter (fun c => negb (String.eqb c "" || String.eqb c ".")) l = l.
Proof.
  induction l as [| c l IH]; simpl; [reflexivity |]. intros H.
  apply andb_prop in H. destruct H as [Hc Hl]. unfold clean_component in Hc.
  apply andb_prop in Hc. destruct Hc as [Hc _]. rewrite Hc, (IH Hl).
  reflexivity.
Qed.

(** The components of a string, filtered, are clean. *)
Lemma split_slash_clean (s cur : string) :
  has_slash cur = false ->
  forallb clean_component
    (filter (fun c => negb (String.eqb c "" || String.eqb c "."))
            (pathlib.split_slash s cur)) = true.
Proof.
  revert cur. induction s as [| c s IH]; intros cur Hcur; simpl.
  - destruct (negb (String.eqb cur "" || String.eqb cur ".")) eqn:E;
      [| reflexivity].
    simpl. unfold clean_component. rewrite E, Hcur. reflexivity.
  - destruct (Ascii.eqb c "/") eqn:Ec.
    + simpl.
      destruct (negb (String.eqb cur "" || String.eqb cur ".")) eqn:E.
      * simpl. unfold clean_component at 1. rewrite E, Hcur. simpl.
        apply IH. reflexivity.
      * apply IH. reflexivity.
    + apply IH. clear IH. induction cur as [| x cur IHc]; simpl in *.
      * rewrite Ec. reflexivity.
      * apply orb_false_elim in Hcur. destruct Hcur as [Hx Hc].
        rewrite Hx. exact (IHc Hc).
Qed.

Lemma of_str_normal (s : string) : normal (pathlib.of_str s) = true.
Proof.
  unfold pathlib.of_str.
  pose proof (split_slash_clean s "" eq_refl) as H.
  set (comps := filter _ _) in *.
  assert (Hn : normal comps = true).
  { destruct comps as [| a l]; [reflexivity |]. simpl in *.
    apply andb_prop in H. destruct H as [-> ->]. rewrite orb_true_r.
    reflexivity. }
  destruct s as [| c s]; [exact Hn |].
  destruct (Ascii.eqb c "/"); [| exact Hn].
  simpl. exact H.
Qed.

(** [Path(str(p))] is [p] for a normal path. *)
Lemma of_str_str (p : Path) :
  normal p = true -> pathlib.of_str (pathlib.str p) = p.
Proof.
  destruct p as [| a l]; [reflexivity |].
  intros H. simpl in H. apply andb_prop in H. destruct H as [Ha Hl].
  unfold pathlib.str. destruct (String.eqb_spec a "/") as [-> | Hne].
  - unfold pathlib.of_str. cbn [append pathlib.split_slash Ascii.eqb Bool.eqb].
    cbn [filter String.eqb negb orb].
    destruct l as [| c l].
    + reflexivity.
    + rewrite (split_slash_join c l (clean_no_slash _ Hl)).
      rewrite (filter_clean _ Hl). reflexivity.
  - simpl in Ha. unfold pathlib.of_str.
    assert (Hall : forallb clean_component (a :: l) = true).
    { simpl. rewrite Ha, Hl. reflexivity. }
    rewrite (split_slash_join a l (clean_no_slash _ Hall)).
    rewrite (filter_clean _ Hall).
    unfold clean_component in Ha. apply andb_prop in Ha.
    destruct Ha as [Hne' Hs]. apply negb_true_iff in Hs.
    destruct a as [| c a]; [discriminate |].
    simpl in Hs. apply orb_false_elim in Hs. destruct Hs as [Hc _].
    destruct l as [| d l]; simpl; rewrite Hc; reflexivity.
Qed.

(** ** Visibility kept in an attribute (macOS, Windows) *)

Lemma pathlib_eqb_refl (p : Path) : pathlib.eqb p p = true.
Proof. unfold pathlib.eqb. destruct (list_eq_dec string_dec p p); congruence. Qed.

Lemma lookup_set_visibility (r b : bool) (q : Path) (fs : FileSystem.FS) :
  FileSystem.lookup (FileSystem.set_visibility r b q fs) q =
  option_map (FileSystem.set_hidden b) (FileSystem.lookup fs q).
Proof.
  induction fs as [| [k n] fs IH]; simpl; [reflexivity |].
  destruct (pathlib.eqb k q) eqn:E; simpl.
  - rewrite E. reflexivity.
  - destruct (r && FileSystem.below q k); simpl; rewrite E; exact IH.
Qed.

(** The platform call of an action on an entry of the store: the attribute
    is set when the operation is 'hide', cleared otherwise. *)
Lemma os_call_attribute (SYSTEM : string) (a : Action) (w : world)
      (n : FileSystem.node) :
  attribute_platform SYSTEM ->
  FileSystem.lookup (w_fs w) (pathlib.of_str (path a)) = Some n ->
  os_call SYSTEM a false w =
  (inr tt,
   mk_world (FileSystem.set_visibility (recursive a)
               (String.eqb (op a) "hide") (pathlib.of_str (path a)) (w_fs w))
            (w_history w) (w_stdout w)).
Proof.
  intros [-> | ->] Hl; unfold os_call; simpl String.eqb; cbv iota.
  - unfold fs._macos, fs._run, on_fs.
    destruct (recursive a), (String.eqb (op a) "hide");
      simpl; unfold FileSystem.flag_command; simpl; rewrite Hl; reflexivity.
  - unfold fs._windows, fs._run, on_fs.
    destruct (recursive a), (String.eqb (op a) "hide");
      simpl; unfold FileSystem.flag_command; simpl; rewrite Hl; reflexivity.
Qed.

(** [is_hidden(p)] for an entry of the store: the words of the line
    [ls -ldO] prints, or the text of the line [attrib] prints. *)
Lemma is_hidden_attribute (SYSTEM : string) (p : string) (w : world)
      (n : FileSystem.node) :
  attribute_platform SYSTEM ->
  FileSystem.lookup (w_fs w) (pathlib.of_str p) = Some n ->
  fs.is_hidden SYSTEM p w =
  (inr (if String.eqb SYSTEM "Darwin"
        then existsb (String.eqb "hidden")
               (Str.split (FileSystem.ls_ldO_line n
                             (pathlib.str (pathlib.of_str p))))
        else Str.contains " H "
               (FileSystem.attrib_line n (pathlib.str (pathlib.of_str p)))
             || Str.endswith
                  (Str.rstrip
                     (FileSystem.attrib_line n
                        (pathlib.str (pathlib.of_str p)))) "H"), w).
Proof.
  intros [-> | ->] Hl; unfold fs.is_hidden, bind, ask_fs, lift, ret,
    FileSystem.subprocess_stdout, FileSystem.exists_, FileSystem.find;
    rewrite Hl; cbn [negb String.eqb Ascii.eqb Bool.eqb andb];
    cbv beta iota; rewrite (of_str_str _ (of_str_normal p));
    unfold FileSystem.find; rewrite Hl; reflexivity.
Qed.

(** Setting the attribute and then giving it the value it had before leaves
    the node as it was. *)
Lemma set_hidden_back (b : bool) (n : FileSystem.node) :
  FileSystem.set_hidden (FileSystem.hidden n) (FileSystem.set_hidden b n) = n.
Proof. destruct n; reflexivity. Qed.

Lemma set_hidden_twice (b c : bool) (n : FileSystem.node) :
  FileSystem.set_hidden c (FileSystem.set_hidden b n) = FileSystem.set_hidden c n.
Proof. destruct n; reflexivity. Qed.

(** An action and then the action of the opposite sense, both through
    [_dispatch], on an entry of the store: the world after the first and the
    file system after the second. *)
Lemma dispatch_attribute (SYSTEM : string) (a : Action) (w : world)
      (n : FileSystem.node) :
  attribute_platform SYSTEM ->
  FileSystem.lookup (w_fs w) (pathlib.of_str (path a)) = Some n ->
  fs._dispatch SYSTEM a false w =
  (inr tt,
   mk_world (FileSystem.set_visibility (recursive a)
               (String.eqb (op a) "hide") (pathlib.of_str (path a)) (w_fs w))
            (Some (journal w ++ [ActionDict a])) (w_stdout w)).
Proof.
  intros Hs Hl. rewrite dispatch_spec, (os_call_attribute SYSTEM a w n Hs Hl).
  reflexivity.
Qed.

(** Counterexample to C1 (macOS): [demo] is hidden before [hide("demo")];
    the hide and its undo both return, and [demo] is visible afterwards. *)
Lemma C1_counterexample :
  outcome (fs.is_hidden "Darwin" "demo") Scenario.demo_hidden = inr true /\
  outcome (fs.hide "Darwin" 1 "demo" false false ;;
           fs.revert_last_change "Darwin" 2 false) Scenario.demo_hidden
    = inr tt /\
  ~ undo_restores_is_hidden "Darwin" (fs.hide "Darwin" 1 "demo" false false)
      "demo" 2 Scenario.demo_hidden.
Proof.
  split; [reflexivity | split; [reflexivity |]].
  intros H. vm_compute in H. discriminate H.
Qed.

(** C1, amended.  On the platforms that keep visibility in an attribute
    (macOS, Windows), for an entry [p] of the file system and every recursive
    flag: a hide of a visible [p], or a seek of a hidden [p], followed by
    [revert_last_change], returns, leaves [is_hidden(p)] at the value it had
    before the operation, and leaves the journal as it was before it. *)
Theorem C1_undo_restores_visibility_changed_by_operation :
  forall (SYSTEM p : string) (r : bool) (now1 now2 : Z) (w : world)
         (n : FileSystem.node),
    attribute_platform SYSTEM ->
    FileSystem.lookup (w_fs w) (pathlib.of_str p) = Some n ->
    (FileSystem.hidden n = false ->
     let run := fs.hide SYSTEM now1 p r false in
     outcome (run ;; fs.revert_last_change SYSTEM now2 false) w = inr tt /\
     undo_restores_is_hidden SYSTEM run p now2 w /\
     journal (after (run ;; fs.revert_last_change SYSTEM now2 false) w)
       = journal w) /\
    (FileSystem.hidden n = true ->
     let run := fs.seek SYSTEM now1 p r false in
     outcome (run ;; fs.revert_last_change SYSTEM now2 false) w = inr tt /\
     undo_restores_is_hidden SYSTEM run p now2 w /\
     journal (after (run ;; fs.revert_last_change SYSTEM now2 false) w)
       = journal w).
Proof.
  intros SYSTEM p r now1 now2 w n Hs Hl.
  assert (Hgen : forall o,
    let a := mk_Action now1 p o r in
    let b := String.eqb o "hide" in
    FileSystem.hidden n = negb b ->
    outcome (fs._dispatch SYSTEM a false ;;
             fs.revert_last_change SYSTEM now2 false) w = inr tt /\
    undo_restores_is_hidden SYSTEM (fs._dispatch SYSTEM a false) p now2 w /\
    journal (after (fs._dispatch SYSTEM a false ;;
                    fs.revert_last_change SYSTEM now2 false) w) = journal w).
  { intros o a b Hn.
    pose proof (dispatch_attribute SYSTEM a w n Hs Hl) as H1.
    simpl path in H1. simpl recursive in H1. simpl op in H1. fold b in H1.
    set (fs1 := FileSystem.set_visibility r b (pathlib.of_str p) (w_fs w)) in *.
    set (w1 := mk_world fs1 (Some (journal w ++ [ActionDict a])) (w_stdout w))
      in *.
    assert (Hl1 : FileSystem.lookup (w_fs w1) (pathlib.of_str p) =
                  Some (FileSystem.set_hidden b n)).
    { simpl. unfold fs1. rewrite lookup_set_visibility, Hl. reflexivity. }
    pose proof (revert_last_change_spec SYSTEM now2 w1 (journal w) a eq_refl)
      as H2.
    rewrite (os_call_attribute SYSTEM (fs.inverse now2 a) w1
               (FileSystem.set_hidden b n) Hs Hl1) in H2.
    simpl path in H2. simpl recursive in H2. simpl op in H2.
    set (b' := String.eqb (if String.eqb o "hide" then "seek" else "hide")
                          "hide") in *.
    assert (Hb' : b' = negb b).
    { unfold b', b. destruct (String.eqb o "hide"); reflexivity. }
    set (fs2 := FileSystem.set_visibility r b' (pathlib.of_str p) (w_fs w1))
      in *.
    assert (Hrun : (fs._dispatch SYSTEM a false ;;
                    fs.revert_last_change SYSTEM now2 false) w =
                   (inr tt, mk_world fs2 (Some (journal w)) (w_stdout w))).
    { unfold bind. rewrite H1, H2. reflexivity. }
    assert (Hl2 : FileSystem.lookup fs2 (pathlib.of_str p) =
                  Some (FileSystem.set_hidden b' (FileSystem.set_hidden b n))).
    { unfold fs2. rewrite lookup_set_visibility, Hl1. reflexivity. }
    unfold undo_restores_is_hidden, outcome, after. rewrite Hrun. simpl snd.
    split; [reflexivity | split; [| reflexivity]].
    rewrite Hb', <- Hn, set_hidden_back in Hl2.
    rewrite (is_hidden_attribute SYSTEM p
               (mk_world fs2 (Some (journal w)) (w_stdout w)) n Hs Hl2).
    rewrite (is_hidden_attribute SYSTEM p w n Hs Hl).
    reflexivity. }
  split; intros Hn.
  - exact (Hgen "hide"%string Hn).
  - exact (Hgen "seek"%string Hn).
Qed.

(** Witness of the amended C1: the visible [demo] of the scenario, hidden
    recursively on macOS and restored by the undo. *)
Lemma C1_undo_restores_witness :
  outcome (fs.hide "Darwin" 1 "demo" true false ;;
           fs.revert_last_change "Darwin" 2 false) Scenario.demo = inr tt /\
  undo_restores_is_hidden "Darwin" (fs.hide "Darwin" 1 "demo" true false)
    "demo" 2 Scenario.demo /\
  journal (after (fs.hide "Darwin" 1 "demo" true false ;;
                  fs.revert_last_change "Darwin" 2 false) Scenario.demo)
    = journal Scenario.demo.
Proof.
  destruct (C1_undo_restores_visibility_changed_by_operation
              "Darwin" "demo" true 1 2 Scenario.demo Scenario.dir
              (or_introl eq_refl) eq_refl) as (Hh & _).
  exact (Hh eq_refl).
Defined.

(** Counterexample to C4 (macOS): [demo] is hidden before the two calls and
    visible after them.  On Linux the same holds of a dot-prefixed directory:
    hide does nothing, seek renames it, and [is_hidden] of the old path
    raises. *)
Lemma C4_counterexample :
  ~ hide_seek_restores_is_hidden "Darwin" "demo" false 1 2 Scenario.demo_hidden
  /\
  ~ hide_seek_restores_is_hidden "Linux" ".demo" false 1 2 Scenario.dot_demo.
Proof.
  split; intros H; vm_compute in H; discriminate H.
Qed.

(** C4, amended.  On the platforms that keep visibility in an attribute
    (macOS, Windows), for an entry [p] of the file system and every recursive
    flag, [hide(p, r)] and then [seek(p, r)] return and leave [p] as it was
    but for its hidden attribute, which is cleared.  When the attribute was
    clear before the two calls, [is_hidden(p)] answers after them what it
    answered before. *)
Theorem C4_hide_then_seek_leaves_visible :
  forall (SYSTEM p : string) (r : bool) (now1 now2 : Z) (w : world)
         (n : FileSystem.node),
    attribute_platform SYSTEM ->
    FileSystem.lookup (w_fs w) (pathlib.of_str p) = Some n ->
    let both := fs.hide SYSTEM now1 p r false ;; fs.seek SYSTEM now2 p r false in
    outcome both w = inr tt /\
    FileSystem.lookup (w_fs (after both w)) (pathlib.of_str p) =
      Some (FileSystem.set_hidden false n) /\
    (FileSystem.hidden n = false ->
     hide_seek_restores_is_hidden SYSTEM p r now1 now2 w).
Proof.
  intros SYSTEM p r now1 now2 w n Hs Hl both.
  set (a1 := mk_Action now1 p "hide" r).
  set (a2 := mk_Action now2 p "seek" r).
  pose proof (dispatch_attribute SYSTEM a1 w n Hs Hl) as H1.
  simpl in H1.
  set (w1 := mk_world
               (FileSystem.set_visibility r true (pathlib.of_str p) (w_fs w))
               (Some (journal w ++ [ActionDict a1])) (w_stdout w)) in *.
  assert (Hl1 : FileSystem.lookup (w_fs w1) (pathlib.of_str p) =
                Some (FileSystem.set_hidden true n)).
  { simpl. rewrite lookup_set_visibility, Hl. reflexivity. }
  pose proof (dispatch_attribute SYSTEM a2 w1 _ Hs Hl1) as H2.
  simpl path in H2. simpl recursive in H2. simpl op in H2.
  simpl String.eqb in H2.
  set (fs2 := FileSystem.set_visibility r false (pathlib.of_str p) (w_fs w1))
    in *.
  assert (Hrun : both w =
                 (inr tt, mk_world fs2 (Some (journal w1 ++ [ActionDict a2]))
                            (w_stdout w1))).
  { unfold both, fs.hide, fs.seek, bind. fold a1. fold a2.
    rewrite H1, H2. reflexivity. }
  assert (Hl2 : FileSystem.lookup fs2 (pathlib.of_str p) =
                Some (FileSystem.set_hidden false n)).
  { unfold fs2. rewrite lookup_set_visibility, Hl1. cbn [option_map].
    rewrite set_hidden_twice. reflexivity. }
  split; [unfold outcome; rewrite Hrun; reflexivity |].
  split; [unfold after; rewrite Hrun; exact Hl2 |].
  intros Hn. unfold hide_seek_restores_is_hidden. fold both.
  unfold outcome, after. rewrite Hrun. cbn [snd].
  rewrite <- Hn, <- (set_hidden_twice true), set_hidden_back in Hl2.
  rewrite (is_hidden_attribute SYSTEM p
             (mk_world fs2 (Some (journal w1 ++ [ActionDict a2]))
                       (w_stdout w1)) n Hs Hl2).
  rewrite (is_hidden_attribute SYSTEM p w n Hs Hl). reflexivity.
Qed.

(** Witness of the amended C4: the visible [demo], on Windows. *)
Lemma C4_hide_then_seek_witness :
  let both := fs.hide "Windows" 1 "demo" true false ;;
              fs.seek "Windows" 2 "demo" true false in
  outcome both Scenario.demo = inr tt /\
  FileSystem.lookup (w_fs (after both Scenario.demo)) ["demo"%string] =
    Some (FileSystem.set_hidden false Scenario.dir) /\
  (FileSystem.hidden Scenario.dir = false ->
   hide_seek_restores_is_hidden "Windows" "demo" true 1 2 Scenario.demo).
Proof.
  exact (C4_hide_then_seek_leaves_visible "Windows" "demo" true 1 2
           Scenario.demo Scenario.dir (or_intror eq_refl) eq_refl).
Defined.

(** ** Sanitize by type and date *)







(** ** The loop of [_unique_path] ends *)














(* ========================================================================= *)
(** * Further properties of the two engines                                  *)
(* ========================================================================= *)

(** ** The journal keeps its shape *)

(** After [revert_last_change] the journal is the one before, or the one
    before shortened by its last entry. *)
Lemma revert_last_change_journal (SYSTEM : string) (now : Z) (d : bool)
      (w : world) :
  let w' := after (fs.revert_last_change SYSTEM now d) w in
  journal w' = journal w \/ exists e, journal w = journal w' ++ [e].
Proof.
  intros w'. destruct d.
  { left. apply journal_of_history, (revert_last_change_dry SYSTEM now w). }
  destruct (pop (journal w)) as [[rest e] |] eqn:Ep.
  - destruct e as [a | h].
    + pose proof (pop_spec _ _ _ Ep) as Hj.
      pose proof (revert_last_change_spec SYSTEM now w rest a Hj) as Hs.
      pose proof (os_call_keeps SYSTEM (fs.inverse now a) false w) as Hk.
      unfold after in Hk. unfold w', after. rewrite Hs.
      destruct (os_call SYSTEM (fs.inverse now a) false w) as [[e | u] w1];
        simpl in *.
      * left. apply journal_of_history, Hk.
      * right. exists (ActionDict a). exact Hj.
    + left. unfold w', after, fs.revert_last_change, bind.
      rewrite load_fs_spec, Ep. reflexivity.
  - left. unfold w', after, fs.revert_last_change, bind.
    rewrite load_fs_spec, Ep. reflexivity.
Qed.

(** After [revert_last_sanitize] the journal is the one before, or the one
    before with one entry taken out. *)
Lemma revert_last_sanitize_journal (d : bool) (w : world) :
  let w' := after (sanitizer.revert_last_sanitize d) w in
  journal w' = journal w \/
  exists before e after_,
    journal w = before ++ e :: after_ /\ journal w' = before ++ after_.
Proof.
  intros w'. destruct d.
  { left. apply journal_of_history, (revert_last_sanitize_dry w). }
  unfold w', after, sanitizer.revert_last_sanitize, bind.
  rewrite load_sanitizer_spec.
  destruct (journal w) as [| e0 l] eqn:Ej; [left; exact Ej |].
  destruct (sanitizer.last_sanitize_index 0 (e0 :: l)) as [i |];
    [| left; exact Ej].
  destruct (pop_at i (e0 :: l)) as [[rest e] |] eqn:Ep; [| left; exact Ej].
  destruct (pop_at_spec _ _ _ _ Ep) as (H1 & H2 & _).
  pose proof (entry_moves_preserves e w) as He. unfold after in He.
  destruct (sanitizer.entry_moves e w) as [[x | mvs] w0] eqn:Em.
  - left. simpl in *. rewrite <- Ej. apply journal_of_history, He.
  - assert (w0 = w).
    { destruct e; unfold sanitizer.entry_moves, ret, raise in Em; congruence. }
    subst w0.
    pose proof (replay_keeps mvs false w) as Hk. unfold after in Hk.
    fold (replay_reversed mvs false).
    destruct (replay_reversed mvs false w) as [[x | u] w1]; simpl in *.
    + left. rewrite <- Ej. apply journal_of_history, Hk.
    + right. exists (firstn i (e0 :: l)), e, (skipn (S i) (e0 :: l)).
      split; [exact H1 | exact H2].
Qed.

(** X1.  The journal keeps its shape: when every entry of the history file
    is a hide/seek action or a sanitize batch with at least one move, this is
    still so after any of the five operations, with any arguments, in dry-run
    or not, whether the operation returns or raises. *)
Theorem X1_journal_entries_stay_well_formed :
  forall (SYSTEM TODAY : string) (off now : Z) (rng : nat -> Z)
         (p root : string) (r d : bool) (opts : sanitizer.SanitizerOptions)
         (w : world),
    Forall entry_wf (journal w) ->
    Forall entry_wf (journal (after (fs.hide SYSTEM now p r d) w)) /\
    Forall entry_wf (journal (after (fs.seek SYSTEM now p r d) w)) /\
    Forall entry_wf
      (journal (after (sanitizer.sanitize TODAY off now rng root opts) w)) /\
    Forall entry_wf (journal (after (fs.revert_last_change SYSTEM now d) w)) /\
    Forall entry_wf (journal (after (sanitizer.revert_last_sanitize d) w)).
Proof.
  intros SYSTEM TODAY off now rng p root r d opts w Hw.
  assert (Hd : forall a, entry_wf (ActionDict a) ->
             Forall entry_wf (journal (after (fs._dispatch SYSTEM a d) w))).
  { intros a Ha. destruct d.
    - rewrite (journal_of_history _ _ (proj2 (dispatch_dry SYSTEM a w))).
      exact Hw.
    - unfold after. rewrite dispatch_spec.
      pose proof (os_call_keeps SYSTEM a false w) as Hk. unfold after in Hk.
      destruct (os_call SYSTEM a false w) as [[e | u] w1]; simpl in *.
      + rewrite (journal_of_history _ _ Hk). exact Hw.
      + apply Forall_app. split; [exact Hw | constructor; [exact Ha | constructor]]. }
  split; [apply Hd; left; reflexivity |].
  split; [apply Hd; right; reflexivity |].
  split; [| split].
  - pose proof (sanitize_appends TODAY off now rng root opts w) as Hs.
    unfold after.
    destruct (sanitizer.sanitize TODAY off now rng root opts w)
      as [[e | u] w1]; simpl.
    + rewrite (journal_of_history _ _ Hs). exact Hw.
    + destruct Hs as [Hs | (e & (mvs & Hm & ->) & Hs)].
      * rewrite (journal_of_history _ _ Hs). exact Hw.
      * unfold journal at 1. rewrite Hs. apply Forall_app.
        split; [exact Hw |]. constructor; [| constructor].
        split; [reflexivity | exact Hm].
  - destruct (revert_last_change_journal SYSTEM now d w) as [-> | (e & He)];
      [exact Hw |].
    rewrite He in Hw. apply Forall_app in Hw. apply Hw.
  - destruct (revert_last_sanitize_journal d w)
      as [-> | (before & e & after_ & He & ->)]; [exact Hw |].
    rewrite He in Hw. apply Forall_app in Hw. destruct Hw as [Hb Ha].
    apply Forall_app. split; [exact Hb |]. inversion Ha; assumption.
Qed.

(** Witness of X1: the journal of the scenario, a sanitize batch followed by
    a hide action. *)
Lemma X1_journal_witness :
  Forall entry_wf
    (journal (after (sanitizer.revert_last_sanitize false)
                    Scenario.sanitize_then_hide)) /\
  Forall entry_wf
    (journal (after (fs.revert_last_change "Darwin" 12 false)
                    Scenario.sanitize_then_hide)).
Proof.
  assert (Hw : Forall entry_wf (journal Scenario.sanitize_then_hide)).
  { repeat constructor; discriminate. }
  destruct (X1_journal_entries_stay_well_formed "Darwin" "010124" 0 12
              Scenario.no_rng "demo" "/root" false false Scenario.by_type
              Scenario.sanitize_then_hide Hw) as (_ & _ & _ & H4 & H5).
  split; [exact H5 | exact H4].
Defined.

(** ** [is_hidden] and the platforms *)









Lemma os_call_unsupported (SYSTEM : string) (a : Action) (d : bool) :
  unsupported SYSTEM ->
  os_call SYSTEM a d =
  raise (NotImplementedError ("Unsupported OS: " ++ SYSTEM)%string).
Proof.
  intros (Hd & Hl & Hw). apply String.eqb_neq in Hd, Hl, Hw.
  unfold os_call. rewrite Hd, Hl, Hw. reflexivity.
Qed.

(** X3.  On a platform that is none of Darwin, Linux and Windows, hide and
    seek raise [NotImplementedError] naming the platform, in dry-run as well,
    and leave the world as it was: nothing is recorded.  The undo of a
    journal that ends with an action raises the same error and keeps the
    entry. *)
Theorem X3_unsupported_platform :
  forall (SYSTEM p : string) (now : Z) (r d : bool) (w : world),
    unsupported SYSTEM ->
    let err := NotImplementedError ("Unsupported OS: " ++ SYSTEM)%string in
    fs.hide SYSTEM now p r d w = (inl err, w) /\
    fs.seek SYSTEM now p r d w = (inl err, w) /\
    (forall before a,
        journal w = before ++ [ActionDict a] ->
        fs.revert_last_change SYSTEM now d w = (inl err, w)).
Proof.
  intros SYSTEM p now r d w Hu err.
  assert (Hd : forall a, fs._dispatch SYSTEM a d w = (inl err, w)).
  { intros a. rewrite dispatch_unfold, (os_call_unsupported SYSTEM a d Hu).
    reflexivity. }
  split; [apply Hd | split; [apply Hd |]].
  intros before a Hj. unfold fs.revert_last_change, bind.
  rewrite load_fs_spec, Hj, pop_app. simpl fs.Action_of. unfold ret at 1.
  rewrite Hd. reflexivity.
Qed.

(** Witness of X3: a dry-run hide on FreeBSD. *)
Lemma X3_unsupported_witness :
  fs.hide "FreeBSD" 1 "demo" false true Scenario.demo =
    (inl (NotImplementedError "Unsupported OS: FreeBSD"), Scenario.demo).
Proof.
  apply (X3_unsupported_platform "FreeBSD" "demo" 1 false true Scenario.demo).
  repeat split; discriminate.
Defined.

(** ** What [sanitize] plans *)

Lemma is_prefix_app (p l : Path) : pathlib.is_prefix p (p ++ l) = true.
Proof.
  induction p as [| a p IH]; simpl; [reflexivity |].
  rewrite String.eqb_refl. exact IH.
Qed.

Lemma div_extends (p : Path) (s : string) :
  exists l, pathlib.div p s = p ++ l /\ (length l <= 1)%nat.
Proof.
  unfold pathlib.div. destruct (String.eqb s "").
  - exists []. rewrite app_nil_r. split; [reflexivity | simpl; lia].
  - exists [s]. split; [reflexivity | simpl; lia].
Qed.

(** The destination is the root followed by at most three components: the
    type folder, the date folder and the name. *)
Lemma target_path_extends_root (TODAY : string) (off : Z)
      (fs0 : FileSystem.FS) (rand : Z) (file root d : Path)
      (opts : sanitizer.SanitizerOptions) :
  sanitizer._target_path TODAY off fs0 rand file root opts = inr d ->
  exists l, d = root ++ l /\ (length l <= 3)%nat.
Proof.
  unfold sanitizer._target_path. intros H.
  set (b1 := if sanitizer.sort_by_type opts
             then pathlib.div root
                    (Str.lower (Str.lstrip_dot (pathlib.suffix file)))
             else root) in H.
  assert (H1 : exists l, b1 = root ++ l /\ (length l <= 1)%nat).
  { unfold b1. destruct (sanitizer.sort_by_type opts);
      [apply div_extends |].
    exists []. rewrite app_nil_r. split; [reflexivity | simpl; lia]. }
  destruct H1 as (l1 & E1 & L1).
  set (b2 := if sanitizer.sort_by_date opts then _ else _) in H.
  assert (H2 : forall b, b2 = inr b -> exists l, b = root ++ l /\ (length l <= 2)%nat).
  { intros b Hb. unfold b2 in Hb.
    destruct (sanitizer.sort_by_date opts).
    - destruct (sanitizer._file_date off fs0 file opts) as [e | dt];
        [discriminate |].
      assert (Hd : b = pathlib.div b1 (datetime.strftime_Ymd dt)).
      { destruct (sanitizer.sort_by_type opts); congruence. }
      destruct (div_extends b1 (datetime.strftime_Ymd dt)) as (l & E & L).
      exists (l1 ++ l). rewrite Hd, E, E1, app_assoc, length_app.
      split; [reflexivity | lia].
    - injection Hb as <-. exists l1. split; [exact E1 | lia]. }
  destruct b2 as [e | b]; [discriminate |].
  destruct (H2 b eq_refl) as (l2 & E2 & L2).
  injection H as Hd.
  match type of Hd with
  | pathlib.div ?base ?s = _ => destruct (div_extends base s) as (l & E & L)
  end.
  rewrite E in Hd. subst d.
  exists (l2 ++ l). rewrite E2, app_assoc, length_app.
  split; [reflexivity | lia].
Qed.

(** X5.  Every move that [sanitize] plans takes one of the gathered files
    to a different path that lies under the root, at most three levels below
    it; there are no more moves than files.  No policy sends a file out of
    the root. *)
Theorem X5_planned_moves_stay_under_root :
  forall (TODAY : string) (off : Z) (fs0 : FileSystem.FS) (rng : nat -> Z)
         (i : nat) (files : list Path) (root : Path)
         (opts : sanitizer.SanitizerOptions) (mvs : list _Move),
    sanitizer.plan_moves TODAY off fs0 rng i files root opts = inr mvs ->
    (length mvs <= length files)%nat /\
    Forall (fun mv =>
              exists file d,
                In file files /\
                src mv = pathlib.str file /\ dst mv = pathlib.str d /\
                d <> file /\
                pathlib.is_prefix root d = true /\
                (length d <= length root + 3)%nat) mvs.
Proof.
  intros TODAY off fs0 rng i files root opts. revert i.
  induction files as [| file files IH]; intros i mvs H; simpl in H.
  - injection H as <-. split; [simpl; lia | constructor].
  - destruct (sanitizer._target_path TODAY off fs0 (rng i) file root opts)
      as [e | d] eqn:Et; [discriminate |].
    destruct (sanitizer.plan_moves TODAY off fs0 rng (S i) files root opts)
      as [e | rest] eqn:Ep; [discriminate |].
    destruct (IH (S i) rest Ep) as (Hlen & Hall).
    assert (Hrest : Forall (fun mv =>
              exists file0 d0,
                In file0 (file :: files) /\
                src mv = pathlib.str file0 /\ dst mv = pathlib.str d0 /\
                d0 <> file0 /\
                pathlib.is_prefix root d0 = true /\
                (length d0 <= length root + 3)%nat) rest).
    { eapply Forall_impl; [| exact Hall].
      intros mv (f0 & d0 & Hin & Hrest). exists f0, d0.
      split; [right; exact Hin | exact Hrest]. }
    unfold pathlib.eqb in H.
    destruct (list_eq_dec string_dec d file) as [Heq | Hne];
      injection H as <-.
    + split; [simpl; lia | exact Hrest].
    + split; [simpl; lia |]. constructor; [| exact Hrest].
      destruct (target_path_extends_root _ _ _ _ _ _ _ _ Et) as (l & El & Ll).
      exists file, d. simpl.
      repeat split; auto.
      * rewrite El. apply is_prefix_app.
      * rewrite El, length_app. lia.
Qed.

(** Witness of X5: the two files of [same_name] are both planned for
    [/root/txt/a.txt]. *)
Lemma X5_planned_moves_witness :
  (length [mk_Move "/root/x/a.txt" "/root/txt/a.txt";
           mk_Move "/root/y/a.txt" "/root/txt/a.txt"] <= 2)%nat /\
  Forall (fun mv =>
            exists file d,
              In file [["/"; "root"; "x"; "a.txt"]; ["/"; "root"; "y"; "a.txt"]]%string /\
              src mv = pathlib.str file /\ dst mv = pathlib.str d /\
              d <> file /\
              pathlib.is_prefix ["/"; "root"]%string d = true /\
              (length d <= 2 + 3)%nat)
         [mk_Move "/root/x/a.txt" "/root/txt/a.txt";
          mk_Move "/root/y/a.txt" "/root/txt/a.txt"].
Proof.
  exact (X5_planned_moves_stay_under_root "010124" 0
           (w_fs Scenario.same_name) Scenario.no_rng 0
           [["/"; "root"; "x"; "a.txt"]; ["/"; "root"; "y"; "a.txt"]]%string
           ["/"; "root"]%string Scenario.by_type_recursive _ eq_refl).
Defined.

Lemma pathlib_eqb_eq (p q : Path) : pathlib.eqb p q = true -> p = q.
Proof.
  unfold pathlib.eqb. destruct (list_eq_dec string_dec p q); congruence.
Qed.

(** A child of [root] is [root] followed by its own name. *)
Lemma child_of_recompose (root q : Path) :
  FileSystem.child_of root q = true -> q = root ++ [pathlib.name q].
Proof.
  unfold FileSystem.child_of. intros H. apply andb_prop in H.
  destruct H as [Hp Ha]. apply pathlib_eqb_eq in Hp.
  assert (Hq : q <> []) by (intros ->; discriminate Ha).
  rewrite <- Hp. unfold pathlib.parent, pathlib.name.
  apply app_removelast_last. exact Hq.
Qed.

(** Without renaming and sorting, a file that lies directly in the root is
    planned for the place where it is. *)
Lemma plan_moves_in_place (TODAY : string) (off : Z) (fs0 : FileSystem.FS)
      (rng : nat -> Z) (root : Path) (opts : sanitizer.SanitizerOptions)
      (files : list Path) :
  sanitizer.sani_name opts = false ->
  sanitizer.sort_by_type opts = false ->
  sanitizer.sort_by_date opts = false ->
  Forall (fun f => f = root ++ [pathlib.name f] /\ pathlib.name f <> ""%string)
         files ->
  forall i, sanitizer.plan_moves TODAY off fs0 rng i files root opts = inr [].
Proof.
  intros Hn Ht Hd Hall. induction Hall as [| f files [Hf Hne] _ IH]; intros i.
  - reflexivity.
  - cbn [sanitizer.plan_moves]. unfold sanitizer._target_path.
    rewrite Hn, Ht, Hd, IH. unfold pathlib.div.
    apply String.eqb_neq in Hne. rewrite Hne, <- Hf, pathlib_eqb_refl.
    reflexivity.
Qed.

(** X6.  With renaming and both sortings off, a non-recursive [sanitize]
    plans no move at all (every file in the root is already where the policy
    wants it): the history file is left alone, and so is the file system
    unless the cleanup of empty directories is asked for outside dry-run.
    The names of the entries are assumed non-empty. *)
Theorem X6_sanitize_without_sorting_moves_nothing :
  forall (TODAY : string) (off now : Z) (rng : nat -> Z) (root : string)
         (opts : sanitizer.SanitizerOptions) (w : world),
    sanitizer.sani_name opts = false ->
    sanitizer.sort_by_type opts = false ->
    sanitizer.sort_by_date opts = false ->
    sanitizer.recursive opts = false ->
    (forall q, In q (map fst (w_fs w)) -> pathlib.name q <> ""%string) ->
    let w' := after (sanitizer.sanitize TODAY off now rng root opts) w in
    w_history w' = w_history w /\
    (sanitizer.cleanup_empty opts = false \/ sanitizer.dry_run opts = true ->
     w_fs w' = w_fs w).
Proof.
  intros TODAY off now rng root opts w Hn Ht Hd Hr Hnames w'.
  unfold w', after, sanitizer.sanitize, bind, ask_fs. cbv beta.
  destruct (FileSystem.exists_ (w_fs w) (pathlib.of_str root));
    cbn [negb]; cbv beta iota; [| split; reflexivity].
  rewrite Hr. unfold sanitizer._gather_files.
  destruct (FileSystem.iterdir (w_fs w) (pathlib.of_str root))
    as [e | l] eqn:Ei; [split; reflexivity |].
  cbv beta iota.
  set (files := filter (FileSystem.is_file (w_fs w)) l).
  assert (Hfiles : Forall (fun f => f = pathlib.of_str root ++ [pathlib.name f]
                                    /\ pathlib.name f <> ""%string) files).
  { apply Forall_forall. intros f Hf. unfold files in Hf.
    apply filter_In in Hf. destruct Hf as [Hf _].
    unfold FileSystem.iterdir in Ei.
    destruct (FileSystem.find (w_fs w) (pathlib.of_str root)) as [n |];
      [| discriminate].
    destruct (FileSystem.is_dir n); [| discriminate].
    injection Ei as <-. apply in_map_iff in Hf.
    destruct Hf as ([q m] & <- & Hq). apply filter_In in Hq.
    destruct Hq as [Hq Hc]. simpl in *. split.
    - apply child_of_recompose. exact Hc.
    - apply Hnames. apply in_map_iff. exists (q, m). split; [reflexivity | exact Hq]. }
  destruct files as [| f0 files0] eqn:Ef; [split; reflexivity |].
  unfold lift.
  rewrite (plan_moves_in_place TODAY off (w_fs w) rng (pathlib.of_str root)
             opts (f0 :: files0) Hn Ht Hd Hfiles 0).
  cbn [for_each]. unfold ret. cbv beta iota.
  rewrite andb_false_r.
  destruct (sanitizer.cleanup_empty opts) eqn:Ec; cbv beta iota.
  - pose proof (cleanup_keeps (pathlib.of_str root) (sanitizer.dry_run opts) w)
      as Hk.
    pose proof (cleanup_dry (pathlib.of_str root) w) as Hdry.
    unfold after in Hk, Hdry.
    destruct (sanitizer.dry_run opts) eqn:Edry.
    + destruct (sanitizer._cleanup_empty_dirs (pathlib.of_str root) true w)
        as [[e | u] w1]; simpl in *; split; try tauto; intros _; apply Hdry.
    + destruct (sanitizer._cleanup_empty_dirs (pathlib.of_str root) false w)
        as [[e | u] w1]; simpl in *; (split; [exact Hk |]);
        intros [Hx | Hx]; discriminate.
  - split; [reflexivity | intros _; reflexivity].
Qed.

(** Witness of X6: [/root] with its two files and the default policy. *)
Lemma X6_sanitize_without_sorting_witness :
  let w := Scenario.fresh (Scenario.two_files (Scenario.file "A" 0 0)
                                              (Scenario.file "B" 0 0)) in
  let w' := after (sanitizer.sanitize "010124" 0 1 Scenario.no_rng "/root"
                     sanitizer.default_opts) w in
  w_history w' = w_history w /\
  (false = false \/ false = true -> w_fs w' = w_fs w).
Proof.
  apply (X6_sanitize_without_sorting_moves_nothing "010124" 0 1
           Scenario.no_rng "/root" sanitizer.default_opts
           (Scenario.fresh (Scenario.two_files (Scenario.file "A" 0 0)
                                               (Scenario.file "B" 0 0))));
    try reflexivity.
  intros q Hq. simpl in Hq.
  destruct Hq as [<- | [<- | [<- | []]]]; discriminate.
Defined.

(** ** Linux: a path already in the wanted state *)

(** X7.  On Linux a non-recursive hide of an existing path whose name
    already starts with a dot renames nothing, and so does a seek of a path
    whose name has no leading dot; the call returns all the same and the
    action is appended to the journal. *)
Theorem X7_linux_no_rename_yet_recorded :
  forall (p : string) (now : Z) (w : world),
    FileSystem.exists_ (w_fs w) (pathlib.of_str p) = true ->
    (Str.startswith_dot (pathlib.name (pathlib.of_str p)) = true ->
     fs.hide "Linux" now p false false w =
     (inr tt,
      with_history
        (Some (journal w ++ [ActionDict (mk_Action now p "hide" false)])) w))
    /\
    (Str.startswith_dot (pathlib.name (pathlib.of_str p)) = false ->
     fs.seek "Linux" now p false false w =
     (inr tt,
      with_history
        (Some (journal w ++ [ActionDict (mk_Action now p "seek" false)])) w)).
Proof.
  intros p now w Hex. split; intros Hdot.
  - unfold fs.hide. rewrite dispatch_spec.
    unfold os_call, fs._linux, fs._linux_hide_path, bind, ask_fs.
    cbn [String.eqb Ascii.eqb Bool.eqb path op recursive].
    rewrite Hex, Hdot. reflexivity.
  - unfold fs.seek. rewrite dispatch_spec.
    unfold os_call, fs._linux, fs._linux_seek_path, bind, ask_fs.
    cbn [String.eqb Ascii.eqb Bool.eqb path op recursive].
    rewrite Hex, Hdot. reflexivity.
Qed.

(** Witness of X7: the dot-prefixed directory of the scenario. *)
Lemma X7_linux_no_rename_witness :
  fs.hide "Linux" 1 ".demo" false false Scenario.dot_demo =
  (inr tt,
   with_history (Some [ActionDict (mk_Action 1 ".demo" "hide" false)])
                Scenario.dot_demo).
Proof.
  exact (proj1 (X7_linux_no_rename_yet_recorded ".demo" 1 Scenario.dot_demo
                  eq_refl) eq_refl).
Defined.

(** ** The preview of a dry-run *)

(** X8.  On macOS and Windows a dry-run of hide or seek prints, after
    [[DRY-RUN]], the very command that the real run hands to the operating
    system, and returns without looking at the file system: it succeeds also
    for a path that does not exist. *)
Theorem X8_dry_run_prints_the_command_of_the_real_run :
  forall (SYSTEM : string) (a : Action) (w : world),
    attribute_platform SYSTEM ->
    exists cmd,
      fs._dispatch SYSTEM a true w =
        (inr tt,
         mk_world (w_fs w) (w_history w)
                  (w_stdout w ++ [("[DRY-RUN] " ++ Str.join " " cmd)%string]))
      /\
      os_call SYSTEM a false w = on_fs (FileSystem.subprocess_run cmd) w /\
      last cmd ""%string = path a.
Proof.
  intros SYSTEM a w [-> | ->]; rewrite dispatch_unfold;
    unfold os_call; cbn [String.eqb Ascii.eqb Bool.eqb].
  - unfold fs._macos. eexists. split; [| split].
    + unfold bind. unfold fs._run at 1. cbn [negb]. reflexivity.
    + unfold fs._run. reflexivity.
    + destruct (recursive a); reflexivity.
  - unfold fs._windows. eexists. split; [| split].
    + unfold bind. unfold fs._run at 1. cbn [negb]. reflexivity.
    + unfold fs._run. reflexivity.
    + destruct (recursive a); reflexivity.
Qed.

(** Witness of X8: a recursive hide of a path that does not exist. *)
Lemma X8_dry_run_witness :
  exists cmd,
    fs._dispatch "Darwin" (mk_Action 1 "nowhere" "hide" true) true Scenario.demo
      = (inr tt,
         mk_world (w_fs Scenario.demo) (w_history Scenario.demo)
           (w_stdout Scenario.demo ++
              [("[DRY-RUN] " ++ Str.join " " cmd)%string])) /\
    os_call "Darwin" (mk_Action 1 "nowhere" "hide" true) false Scenario.demo =
      on_fs (FileSystem.subprocess_run cmd) Scenario.demo /\
    last cmd ""%string = "nowhere"%string.
Proof.
  exact (X8_dry_run_prints_the_command_of_the_real_run "Darwin"
           (mk_Action 1 "nowhere" "hide" true) Scenario.demo
           (or_introl eq_refl)).
Defined.

(** ** Collision resolution and cleanup *)





Lemma lookup_remove_other (p q : Path) (fs0 : FileSystem.FS) :
  p <> q ->
  FileSystem.lookup (FileSystem.remove p fs0) q = FileSystem.lookup fs0 q.
Proof.
  intros Hne. induction fs0 as [| [k n] fs0 IH]; simpl; [reflexivity |].
  unfold pathlib.eqb at 1. destruct (list_eq_dec string_dec k p) as [-> | Hk];
    simpl.
  - rewrite IH. unfold pathlib.eqb.
    destruct (list_eq_dec string_dec p q); [contradiction | reflexivity].
  - rewrite IH. reflexivity.
Qed.

Lemma rmdir_keeps (p q : Path) (n : FileSystem.node)
      (fs0 fs1 : FileSystem.FS) :
  FileSystem.rmdir p fs0 = inr fs1 ->
  FileSystem.lookup fs0 q = Some n ->
  p <> q \/ FileSystem.is_dir n = false ->
  FileSystem.lookup fs1 q = Some n.
Proof.
  unfold FileSystem.rmdir, FileSystem.find. intros H Hq Hor.
  assert (Hne : p <> q).
  { destruct Hor as [Hne | Hfile]; [exact Hne |]. intros ->.
    rewrite Hq, Hfile in H. discriminate. }
  destruct (FileSystem.lookup fs0 p) as [m |].
  - destruct (negb (FileSystem.is_dir m)); [discriminate |].
    destruct (FileSystem.has_entries fs0 p || FileSystem.anchored p);
      [discriminate |].
    injection H as <-. rewrite lookup_remove_other; assumption.
  - destruct (FileSystem.anchored p); [| discriminate].
    simpl in H. destruct (FileSystem.has_entries fs0 p || true) eqn:E;
      [discriminate |].
    rewrite orb_true_r in E. discriminate.
Qed.

(** The loop of the cleanup over triples listed on the store [fs0]. *)
Lemma cleanup_loop_keeps (fs0 : FileSystem.FS) (root q : Path)
      (n : FileSystem.node) (triples : list (Path * bool)) :
  Forall (fun t => snd t = negb (FileSystem.has_entries fs0 (fst t))) triples ->
  FileSystem.is_dir n = false \/ q = root \/
    FileSystem.has_entries fs0 q = true ->
  forall w0,
    FileSystem.lookup (w_fs w0) q = Some n ->
    FileSystem.lookup
      (w_fs (snd (for_each triples (fun t =>
                    let p := fst t in
                    if pathlib.eqb p root then ret tt
                    else if snd t then
                      if false then print ("[DRY-RUN] rmdir " ++ pathlib.str p)
                      else on_fs (FileSystem.rmdir p)
                    else ret tt) w0))) q = Some n.
Proof.
  intros Htr Hor.
  induction Htr as [| [p b] triples Hb _ IH]; intros w0 Hq; [exact Hq |].
  cbn [for_each]. unfold bind. cbn [fst snd] in *.
  destruct (pathlib.eqb p root) eqn:Er.
  - unfold ret at 1. apply IH. exact Hq.
  - destruct b.
    + unfold on_fs at 1.
      destruct (FileSystem.rmdir p (w_fs w0)) as [e | fs1] eqn:Ed;
        [exact Hq |].
      apply IH. cbn [w_fs].
      apply (rmdir_keeps p q n (w_fs w0) fs1 Ed Hq).
      destruct Hor as [Hf | [-> | He]].
      * right. exact Hf.
      * left. intros ->. rewrite pathlib_eqb_refl in Er. discriminate.
      * left. intros ->. rewrite He in Hb. discriminate.
    + unfold ret at 1. apply IH. exact Hq.
Qed.

(** X10.  The cleanup of empty directories never removes a file, never
    removes the root, and never removes a directory that had an entry when
    the walk started: each of them is found after the cleanup as before,
    whether the cleanup returns or raises. *)
Theorem X10_cleanup_keeps_files_root_and_non_empty_directories :
  forall (root : Path) (w : world) (q : Path) (n : FileSystem.node),
    FileSystem.lookup (w_fs w) q = Some n ->
    FileSystem.is_dir n = false \/ q = root \/
      FileSystem.has_entries (w_fs w) q = true ->
    FileSystem.lookup
      (w_fs (after (sanitizer._cleanup_empty_dirs root false) w)) q = Some n.
Proof.
  intros root w q n Hq Hor.
  unfold sanitizer._cleanup_empty_dirs, bind, ask_fs, after. cbv beta iota.
  apply (cleanup_loop_keeps (w_fs w) root q n); try assumption.
  unfold FileSystem.walk_bottom_up. apply Forall_forall.
  intros t Ht. apply in_map_iff in Ht. destruct Ht as (p & <- & _).
  reflexivity.
Qed.

(** Witness of X10: after a sanitize by type that left [/root/txt] holding
    [a.txt], the cleanup keeps the file and its directory. *)
Lemma X10_cleanup_witness :
  FileSystem.lookup
    (w_fs (after (sanitizer._cleanup_empty_dirs ["/"; "root"]%string false)
                 Scenario.collided))
    ["/"; "root"; "txt"; "a.txt"]%string = Some (Scenario.file "X" 0 0).
Proof.
  apply (X10_cleanup_keeps_files_root_and_non_empty_directories
           ["/"; "root"]%string Scenario.collided
           ["/"; "root"; "txt"; "a.txt"]%string (Scenario.file "X" 0 0)).
  - vm_compute. reflexivity.
  - left. reflexivity.
Defined.

(** ** The date source *)

Lemma plan_moves_keep_date_created (TODAY : string) (off : Z)
      (fs0 : FileSystem.FS) (rng : nat -> Z) (root : Path)
      (a b c d e e' f g h : bool) (files : list Path) :
  forall i,
    sanitizer.plan_moves TODAY off fs0 rng i files root
      (sanitizer.mk_opts a b c d e f g h) =
    sanitizer.plan_moves TODAY off fs0 rng i files root
      (sanitizer.mk_opts a b c d e' f g h).
Proof.
  induction files as [| file files IH]; intros i; [reflexivity |].
  cbn [sanitizer.plan_moves]. rewrite (IH (S i)). reflexivity.
Qed.

(** X11.  The flag [keep_date_created] is never read: two policies that
    differ in it alone make [sanitize] do the same, in every world.  The
    date folder comes from the modification time when [keep_date_saved] is
    set and from [st_ctime] otherwise. *)
Theorem X11_keep_date_created_is_ignored :
  forall (TODAY : string) (off now : Z) (rng : nat -> Z) (root : string)
         (a b c d e e' f g h : bool) (w : world),
    sanitizer.sanitize TODAY off now rng root
      (sanitizer.mk_opts a b c d e f g h) w =
    sanitizer.sanitize TODAY off now rng root
      (sanitizer.mk_opts a b c d e' f g h) w /\
    (forall file n,
        FileSystem.find (w_fs w) file = Some n ->
        sanitizer._file_date off (w_fs w) file
          (sanitizer.mk_opts a b c d e f g h) =
        inr (datetime.fromtimestamp off
               (if d then FileSystem.st_mtime n else FileSystem.st_ctime n))).
Proof.
  intros TODAY off now rng root a b c d e e' f g h w. split.
  - unfold sanitizer.sanitize, bind, ask_fs. cbv beta.
    destruct (negb (FileSystem.exists_ (w_fs w) (pathlib.of_str root)));
      [reflexivity |].
    cbn [sanitizer.recursive].
    destruct (sanitizer._gather_files (pathlib.of_str root) f w)
      as [[x | files] w1]; [reflexivity |].
    destruct files as [| f0 files]; [reflexivity |].
    unfold lift.
    rewrite (plan_moves_keep_date_created TODAY off (w_fs w1) rng
               (pathlib.of_str root) a b c d e e' f g h (f0 :: files) 0).
    reflexivity.
  - intros file n Hf. unfold sanitizer._file_date, sanitizer.stat.
    rewrite Hf. destruct d; reflexivity.
Qed.

(** ** The interactive session of the sanitizer *)

Ltac crush_locks :=
  unfold locks_respected, sanitizer_menu.set_fname, sanitizer_menu.set_date,
    sanitizer_menu.set_sort in *;
  cbn [sanitizer_menu.sani_name sanitizer_menu.fname_lock
       sanitizer_menu.date_saved sanitizer_menu.date_created
       sanitizer_menu.date_lock sanitizer_menu.sort_filetype
       sanitizer_menu.sort_date sanitizer_menu.sort_lock] in *;
  repeat match goal with
         | H : context [negb ?b] |- _ => is_var b; destruct b
         | |- context [negb ?b] => is_var b; destruct b
         | |- context [if ?b then _ else _] => is_var b; destruct b
         end;
  cbn [negb] in *; intuition congruence.

Lemma toggle_fname_respects (inputs : list string) :
  forall S, locks_respected S ->
            locks_respected (fst (sanitizer_menu._toggle_fname_sub inputs S)).
Proof.
  induction inputs as [| line rest IH]; intros S HS; [exact HS |].
  cbn [sanitizer_menu._toggle_fname_sub].
  destruct (String.eqb (sanitizer_menu.choice_of line) "1"
            && negb (sanitizer_menu.fname_lock S)) eqn:E1.
  { apply IH. apply andb_prop in E1. destruct E1 as [_ E1].
    destruct S. crush_locks. }
  destruct (String.eqb (sanitizer_menu.choice_of line) "2").
  { apply IH. destruct S. crush_locks. }
  destruct (String.eqb (sanitizer_menu.choice_of line) "q");
    [exact HS | apply IH; exact HS].
Qed.

Lemma toggle_date_respects (inputs : list string) :
  forall S, locks_respected S ->
            locks_respected (fst (sanitizer_menu._toggle_date_sub inputs S)).
Proof.
  induction inputs as [| line rest IH]; intros S HS; [exact HS |].
  cbn [sanitizer_menu._toggle_date_sub].
  destruct (String.eqb (sanitizer_menu.choice_of line) "1"
            && negb (sanitizer_menu.date_lock S)) eqn:E1.
  { apply IH. apply andb_prop in E1. destruct E1 as [_ E1].
    destruct S. crush_locks. }
  destruct (String.eqb (sanitizer_menu.choice_of line) "2"
            && negb (sanitizer_menu.date_lock S)) eqn:E2.
  { apply IH. apply andb_prop in E2. destruct E2 as [_ E2].
    destruct S. crush_locks. }
  destruct (String.eqb (sanitizer_menu.choice_of line) "3").
  { apply IH. destruct S. crush_locks. }
  destruct (String.eqb (sanitizer_menu.choice_of line) "q");
    [exact HS | apply IH; exact HS].
Qed.

Lemma toggle_sort_respects (inputs : list string) :
  forall S, locks_respected S ->
            locks_respected (fst (sanitizer_menu._toggle_sort_sub inputs S)).
Proof.
  induction inputs as [| line rest IH]; intros S HS; [exact HS |].
  cbn [sanitizer_menu._toggle_sort_sub].
  destruct (String.eqb (sanitizer_menu.choice_of line) "1"
            && negb (sanitizer_menu.sort_lock S)) eqn:E1.
  { apply IH. apply andb_prop in E1. destruct E1 as [_ E1].
    destruct S. crush_locks. }
  destruct (String.eqb (sanitizer_menu.choice_of line) "2"
            && negb (sanitizer_menu.sort_lock S)) eqn:E2.
  { apply IH. apply andb_prop in E2. destruct E2 as [_ E2].
    destruct S. crush_locks. }
  destruct (String.eqb (sanitizer_menu.choice_of line) "3").
  { apply IH. destruct S. crush_locks. }
  destruct (String.eqb (sanitizer_menu.choice_of line) "q");
    [exact HS | apply IH; exact HS].
Qed.

(** X12.  The locks of the session hold: in the initial state, and after
    any sequence of lines typed in the FileName, Date and Sort sub-menus
    from a state in which they hold, a lock that is on has the flags under it
    off (SaniName; Saved and Created; FileType and Date). *)
Theorem X12_locks_keep_their_flags_off :
  locks_respected sanitizer_menu.S0 /\
  forall (inputs : list string) (S : sanitizer_menu._State),
    locks_respected S ->
    locks_respected (fst (sanitizer_menu._toggle_fname_sub inputs S)) /\
    locks_respected (fst (sanitizer_menu._toggle_date_sub inputs S)) /\
    locks_respected (fst (sanitizer_menu._toggle_sort_sub inputs S)).
Proof.
  split.
  - unfold locks_respected. cbn. intuition congruence.
  - intros inputs S HS. split; [| split].
    + apply toggle_fname_respects. exact HS.
    + apply toggle_date_respects. exact HS.
    + apply toggle_sort_respects. exact HS.
Qed.

(** Witness of X12: SaniName switched on, the lock set, and a further try
    to switch SaniName on. *)
Lemma X12_locks_witness :
  locks_respected
    (fst (sanitizer_menu._toggle_fname_sub ["1"; " 2 "; "1"; "Q"]%string
            sanitizer_menu.S0)) /\
  sanitizer_menu._toggle_fname_sub ["1"; " 2 "; "1"; "Q"; "x"]%string
    sanitizer_menu.S0 =
  (sanitizer_menu.set_fname false true sanitizer_menu.S0, Some ["x"%string]).
Proof.
  split; [| reflexivity].
  apply (proj2 X12_locks_keep_their_flags_off).
  exact (proj1 X12_locks_keep_their_flags_off).
Defined.

(** X13.  [to_opts] never asks for a dry-run.  With CompleteSanitize on it
    gives the strict preset (rename, both sortings, recursive, cleanup),
    whatever the locks say; with it off, in a state where the locks hold, it
    hands every flag on as it is set, recursion being on when either
    recursive flag is. *)
Theorem X13_to_opts :
  forall (S : sanitizer_menu._State),
    sanitizer.dry_run (sanitizer_menu.to_opts S) = false /\
    (sanitizer_menu.complete_sanitize S = true ->
     sanitizer_menu.to_opts S =
     sanitizer.mk_opts true true true false false true true false) /\
    (sanitizer_menu.complete_sanitize S = false ->
     locks_respected S ->
     sanitizer_menu.to_opts S =
     sanitizer.mk_opts
       (sanitizer_menu.sani_name S) (sanitizer_menu.sort_filetype S)
       (sanitizer_menu.sort_date S) (sanitizer_menu.date_saved S)
       (sanitizer_menu.date_created S)
       (sanitizer_menu.recursive S || sanitizer_menu.sort_recursive S)
       (sanitizer_menu.cleanup S) false).
Proof.
  intros S. unfold sanitizer_menu.to_opts. split; [| split].
  - destruct (sanitizer_menu.complete_sanitize S); reflexivity.
  - intros ->. reflexivity.
  - intros -> (Hf & Hd & Hs).
    destruct (sanitizer_menu.fname_lock S);
      [rewrite (Hf eq_refl) |];
    destruct (sanitizer_menu.date_lock S);
      [destruct (Hd eq_refl) as [-> ->] | |
       destruct (Hd eq_refl) as [-> ->] |];
    destruct (sanitizer_menu.sort_lock S);
      try (destruct (Hs eq_refl) as [-> ->]);
    cbn [negb andb]; rewrite ?andb_true_r; reflexivity.
Qed.

(** Witness of X13: everything locked, CompleteSanitize on. *)
Lemma X13_to_opts_witness :
  sanitizer_menu.to_opts
    (sanitizer_menu.mk_State false true false false true true false false
       false false false true) =
  sanitizer.mk_opts true true true false false true true false.
Proof.
  exact (proj1 (proj2 (X13_to_opts
           (sanitizer_menu.mk_State false true false false true true false
              false false false false true))) eq_refl).
Defined.

(** ** The one-shot command *)



(** ** Linux: what the rename leaves behind *)

Lemma is_prefix_refl (p : Path) : pathlib.is_prefix p p = true.
Proof. rewrite <- (app_nil_r p) at 2. apply is_prefix_app. Qed.

Lemma pathlib_eqb_neq (p q : Path) : p <> q -> pathlib.eqb p q = false.
Proof.
  unfold pathlib.eqb. destruct (list_eq_dec string_dec p q); congruence.
Qed.

(** After every binding at or below [p] has moved to [d], a path of at
    least the length of [p] and other than [p], nothing is bound to [p]. *)
Lemma rebase_all_source_gone (p d : Path) (fs0 : FileSystem.FS) :
  (length p <= length d)%nat -> d <> p ->
  FileSystem.lookup (FileSystem.rebase_all p d fs0) p = None.
Proof.
  intros Hlen Hne. induction fs0 as [| [k n] fs0 IH]; [reflexivity |].
  cbn [FileSystem.rebase_all map FileSystem.lookup fst snd].
  fold (FileSystem.rebase_all p d fs0). rewrite IH.
  rewrite pathlib_eqb_neq; [reflexivity |].
  unfold pathlib.rebase. destruct (pathlib.is_prefix p k) eqn:Ep.
  - intros Heq. apply Hne.
    assert (Hl : length (d ++ skipn (length p) k) = length p)
      by (rewrite Heq; reflexivity).
    rewrite length_app in Hl.
    assert (Hs : skipn (length p) k = []).
    { destruct (skipn (length p) k); [reflexivity | simpl in Hl; lia]. }
    rewrite Hs, app_nil_r in Heq. exact Heq.
  - intros ->. rewrite is_prefix_refl in Ep. discriminate.
Qed.

Lemma length_with_name (p : Path) (x : string) :
  p <> [] -> length (pathlib.with_name p x) = length p.
Proof.
  intros Hp. unfold pathlib.with_name, pathlib.parent.
  rewrite length_app. simpl.
  rewrite (app_removelast_last ""%string Hp) at 2. rewrite length_app. simpl.
  reflexivity.
Qed.

Lemma with_name_neq (p : Path) (x : string) :
  p <> [] -> x <> pathlib.name p -> pathlib.with_name p x <> p.
Proof.
  intros Hp Hx Heq. unfold pathlib.with_name, pathlib.parent in Heq.
  rewrite (app_removelast_last ""%string Hp) in Heq at 2.
  apply app_inv_head in Heq. injection Heq as Heq. exact (Hx Heq).
Qed.

(** A successful [mv] of [p] to a sibling of another name leaves nothing
    at [p]. *)
Lemma mv_source_gone (cmd : list string) (p : Path) (x : string)
      (fs0 fs1 : FileSystem.FS) :
  x <> pathlib.name p ->
  FileSystem.mv cmd p (pathlib.with_name p x) fs0 = inr fs1 ->
  FileSystem.exists_ fs1 p = false.
Proof.
  intros Hx H. unfold FileSystem.mv in H.
  destruct (FileSystem.find fs0 p) as [n |]; [| discriminate].
  destruct (FileSystem.anchored p) eqn:Ea; [discriminate |].
  assert (Hp : p <> []) by (intros ->; discriminate).
  pose proof (length_with_name p x Hp) as Hlen.
  pose proof (with_name_neq p x Hp Hx) as Hne.
  set (t := pathlib.with_name p x) in *.
  assert (Hgone : forall d f, (length p <= length d)%nat -> d <> p ->
            FileSystem.exists_ (FileSystem.rebase_all p d f) p = false).
  { intros d f Hl Hd. unfold FileSystem.exists_, FileSystem.find.
    rewrite (rebase_all_source_gone p d f Hl Hd), Ea. reflexivity. }
  destruct (FileSystem.find fs0 t) as [m |].
  - destruct (FileSystem.is_dir m).
    + destruct (FileSystem.exists_ fs0 (pathlib.div t (pathlib.name p))
                || pathlib.is_prefix p t); [discriminate |].
      injection H as <-. apply Hgone.
      * unfold pathlib.div. destruct (String.eqb (pathlib.name p) "");
          [lia | rewrite length_app; lia].
      * unfold pathlib.div. destruct (String.eqb (pathlib.name p) "");
          [exact Hne |].
        intros Heq. apply (f_equal (@length string)) in Heq.
        rewrite length_app in Heq. simpl in Heq. lia.
    + destruct (FileSystem.is_dir n); [discriminate |].
      injection H as <-. apply Hgone; [lia | exact Hne].
  - destruct (FileSystem.is_directory fs0 (pathlib.parent t));
      [| discriminate].
    injection H as <-. apply Hgone; [lia | exact Hne].
Qed.

Lemma forallb_removelast {A} (f : A -> bool) (l : list A) :
  forallb f l = true -> forallb f (removelast l) = true.
Proof.
  induction l as [| a l IH]; [reflexivity |]. intros H. simpl in H.
  apply andb_prop in H. destruct H as [Ha Hl].
  destruct l as [| b l]; [reflexivity |].
  change (removelast (a :: b :: l)) with (a :: removelast (b :: l)).
  cbn [forallb]. rewrite Ha. exact (IH Hl).
Qed.

Lemma forallb_last (f : string -> bool) (l : list string) :
  l <> [] -> forallb f l = true -> f (last l ""%string) = true.
Proof.
  induction l as [| a l IH]; [contradiction |]. intros _ H. simpl in H.
  apply andb_prop in H. destruct H as [Ha Hl].
  destruct l as [| b l]; [exact Ha |].
  change (last (a :: b :: l) ""%string) with (last (b :: l) ""%string).
  apply IH; [discriminate | exact Hl].
Qed.

Lemma normal_snoc (l : Path) (x : string) :
  normal l = true -> clean_component x = true -> normal (l ++ [x]) = true.
Proof.
  intros Hl Hx. destruct l as [| a l]; cbn [app normal forallb].
  - rewrite Hx, orb_true_r. reflexivity.
  - cbn [normal] in Hl. apply andb_prop in Hl. destruct Hl as [Ha Hl].
    rewrite Ha, forallb_app, Hl. cbn [forallb]. rewrite Hx. reflexivity.
Qed.

Lemma normal_removelast (p : Path) :
  normal p = true -> normal (removelast p) = true.
Proof.
  destruct p as [| a l]; [reflexivity |]. cbn [normal]. intros H.
  apply andb_prop in H. destruct H as [Ha Hl].
  destruct l as [| b l]; [reflexivity |].
  change (removelast (a :: b :: l)) with (a :: removelast (b :: l)).
  cbn [normal]. rewrite Ha. exact (forallb_removelast _ _ Hl).
Qed.

(** The dot-prefixed sibling of a normal path that is not an anchor is
    normal. *)
Lemma hidden_variant_normal (p : Path) :
  normal p = true -> FileSystem.anchored p = false ->
  normal (pathlib.with_name p ("." ++ pathlib.name p)) = true.
Proof.
  intros Hn Ha. destruct p as [| a l]; [discriminate |].
  simpl in Hn. apply andb_prop in Hn. destruct Hn as [Hfirst Hl].
  assert (Hname : clean_component (pathlib.name (a :: l)) = true).
  { unfold pathlib.name. destruct l as [| b l].
    - simpl in *. rewrite Ha in Hfirst. exact Hfirst.
    - change (last (a :: b :: l) ""%string) with (last (b :: l) ""%string).
      apply forallb_last; [discriminate | exact Hl]. }
  assert (Hdot : clean_component ("." ++ pathlib.name (a :: l)) = true).
  { unfold clean_component in *. apply andb_prop in Hname.
    destruct Hname as [Hne Hs]. simpl.
    destruct (pathlib.name (a :: l)) as [| c s]; [discriminate |].
    simpl in *. exact Hs. }
  unfold pathlib.with_name, pathlib.parent.
  apply normal_snoc; [| exact Hdot].
  apply normal_removelast. simpl. rewrite Hfirst, Hl. reflexivity.
Qed.

(** [_linux_hide_path] on a visible path that [Path] produced: either it
    raises and the world is as before, or it returns and the path is gone. *)
Lemma linux_hide_path_visible (p : Path) (w : world) :
  normal p = true ->
  Str.startswith_dot (pathlib.name p) = false ->
  match fs._linux_hide_path p false w with
  | (inl _, w') => w' = w
  | (inr _, w') =>
      FileSystem.exists_ (w_fs w') p = false /\
      w_history w' = w_history w /\ w_stdout w' = w_stdout w
  end.
Proof.
  intros Hn Hdot. unfold fs._linux_hide_path. rewrite Hdot.
  unfold fs._run, on_fs, FileSystem.subprocess_run.
  cbn [String.eqb Ascii.eqb Bool.eqb]. rewrite (of_str_str p Hn).
  destruct (FileSystem.anchored p) eqn:Ea.
  - unfold FileSystem.mv at 1.
    destruct (FileSystem.find (w_fs w) p); [rewrite Ea |]; reflexivity.
  - rewrite (of_str_str _ (hidden_variant_normal p Hn Ea)).
    destruct (FileSystem.mv _ p _ (w_fs w)) as [e | fs1] eqn:Em;
      [reflexivity |].
    cbn [w_fs w_history w_stdout]. split; [| split; reflexivity].
    refine (mv_source_gone _ p _ (w_fs w) fs1 _ Em).
    intros Heq. apply (f_equal String.length) in Heq. simpl in Heq. lia.
Qed.

(** The platform call of a hide on Linux, for a path without leading dot:
    the recursive flag does not matter, and a return means the path is no
    longer there. *)
Lemma linux_hide_visible (p : string) (now : Z) (r : bool) (w : world) :
  Str.startswith_dot (pathlib.name (pathlib.of_str p)) = false ->
  os_call "Linux" (mk_Action now p "hide" r) false w =
  os_call "Linux" (mk_Action now p "hide" false) false w /\
  match os_call "Linux" (mk_Action now p "hide" r) false w with
  | (inl _, w') => w' = w
  | (inr _, w') =>
      FileSystem.exists_ (w_fs w') (pathlib.of_str p) = false /\
      w_history w' = w_history w /\ w_stdout w' = w_stdout w
  end.
Proof.
  intros Hdot. unfold os_call. cbn [String.eqb Ascii.eqb Bool.eqb].
  unfold fs._linux, bind, ask_fs. cbn [path op recursive].
  cbn [String.eqb Ascii.eqb Bool.eqb].
  destruct (FileSystem.exists_ (w_fs w) (pathlib.of_str p));
    cbn [negb]; cbv beta iota; [| split; reflexivity].
  pose proof (linux_hide_path_visible (pathlib.of_str p) w
                (of_str_normal p) Hdot) as H.
  destruct (fs._linux_hide_path (pathlib.of_str p) false w)
    as [[e | u] w1]; [split; [reflexivity | exact H] |].
  destruct H as (Hgone & Hh & Ho).
  assert (Hsubs : fs._descend_dirs (pathlib.of_str p) w1 = (inr [], w1)).
  { unfold fs._descend_dirs, ask_fs, FileSystem.walk,
      FileSystem.is_directory.
    unfold FileSystem.exists_ in Hgone.
    destruct (FileSystem.find (w_fs w1) (pathlib.of_str p));
      [discriminate | reflexivity]. }
  destruct r.
  - rewrite Hsubs. cbn [for_each]. unfold ret.
    split; [reflexivity | auto].
  - unfold ret. split; [reflexivity | auto].
Qed.

(** X15.  On Linux the recursive flag has no effect on the hide of a path
    without leading dot: once the path is renamed, the walk over its
    sub-directories starts from the old name and finds nothing.  The two
    calls have the same outcome and leave the same file system; a
    sub-directory is never renamed. *)
Theorem X15_linux_recursive_hide_renames_the_root_only :
  forall (p : string) (now : Z) (w : world),
    Str.startswith_dot (pathlib.name (pathlib.of_str p)) = false ->
    outcome (fs.hide "Linux" now p true false) w =
      outcome (fs.hide "Linux" now p false false) w /\
    w_fs (after (fs.hide "Linux" now p true false) w) =
      w_fs (after (fs.hide "Linux" now p false false) w).
Proof.
  intros p now w Hdot. unfold outcome, after, fs.hide.
  rewrite !dispatch_spec.
  destruct (linux_hide_visible p now true w Hdot) as (Heq & _).
  rewrite Heq.
  destruct (os_call "Linux" (mk_Action now p "hide" false) false w)
    as [[e | u] w1]; split; reflexivity.
Qed.

(** Witness of X15: [demo] with its sub-directory [child]; after the
    recursive hide the sub-directory is [.demo/child], not renamed. *)
Lemma X15_linux_recursive_witness :
  (outcome (fs.hide "Linux" 1 "demo" true false) Scenario.demo =
     outcome (fs.hide "Linux" 1 "demo" false false) Scenario.demo /\
   w_fs (after (fs.hide "Linux" 1 "demo" true false) Scenario.demo) =
     w_fs (after (fs.hide "Linux" 1 "demo" false false) Scenario.demo)) /\
  map fst (w_fs (after (fs.hide "Linux" 1 "demo" true false) Scenario.demo)) =
    [[".demo"]; [".demo"; "child"]]%string.
Proof.
  split; [| reflexivity].
  exact (X15_linux_recursive_hide_renames_the_root_only "demo" 1 Scenario.demo
           eq_refl).
Defined.

(** X16.  On Linux, after a hide that returned for a path without leading
    dot, the path recorded in the journal is the old name, which no longer
    exists: [revert_last_change] raises [FileNotFoundError] for it and
    leaves the world, the journal entry included, as it was. *)
Theorem X16_linux_undo_of_hide_raises :
  forall (p : string) (now1 now2 : Z) (r : bool) (w w1 : world),
    Str.startswith_dot (pathlib.name (pathlib.of_str p)) = false ->
    fs.hide "Linux" now1 p r false w = (inr tt, w1) ->
    fs.revert_last_change "Linux" now2 false w1 =
      (inl (FileNotFoundError p), w1) /\
    journal w1 = journal w ++ [ActionDict (mk_Action now1 p "hide" r)].
Proof.
  intros p now1 now2 r w w1 Hdot Hhide.
  unfold fs.hide in Hhide. rewrite dispatch_spec in Hhide.
  destruct (linux_hide_visible p now1 r w Hdot) as (_ & Hres).
  destruct (os_call "Linux" (mk_Action now1 p "hide" r) false w)
    as [[e | u] w0]; [discriminate |].
  destruct Hres as (Hgone & _). injection Hhide as <-.
  split; [| reflexivity].
  rewrite (revert_last_change_spec "Linux" now2
             (with_history
                (Some (journal w ++ [ActionDict (mk_Action now1 p "hide" r)]))
                w0)
             (journal w) (mk_Action now1 p "hide" r) eq_refl).
  unfold os_call. cbn [String.eqb Ascii.eqb Bool.eqb].
  unfold fs._linux, bind, ask_fs. cbn [path fs.inverse w_fs with_history].
  rewrite Hgone. reflexivity.
Qed.

(** Witness of X16: the hide of [demo]. *)
Lemma X16_linux_undo_witness :
  fs.revert_last_change "Linux" 2 false Scenario.linux_hidden =
    (inl (FileNotFoundError "demo"), Scenario.linux_hidden) /\
  journal Scenario.linux_hidden =
    journal Scenario.demo ++ [ActionDict (mk_Action 1 "demo" "hide" false)].
Proof.
  exact (X16_linux_undo_of_hide_raises "demo" 1 2 false Scenario.demo
           Scenario.linux_hidden eq_refl eq_refl).
Defined.

(** ** Linux: the walk over the sub-directories *)




(** ** [sanitize] where there is nothing to sort *)

Lemma lookup_In (fs0 : FileSystem.FS) (q : Path) (n : FileSystem.node) :
  FileSystem.lookup fs0 q = Some n -> In (q, n) fs0.
Proof.
  induction fs0 as [| [k m] fs0 IH]; simpl; [discriminate |].
  destruct (pathlib.eqb k q) eqn:E.
  - intros H. injection H as <-. apply pathlib_eqb_eq in E. subst k.
    left. reflexivity.
  - intros H. right. exact (IH H).
Qed.

Lemma child_below (root q : Path) :
  FileSystem.child_of root q = true -> FileSystem.below root q = true.
Proof.
  intros H. pose proof (child_of_recompose root q H) as Hq.
  unfold FileSystem.below. rewrite Hq at 1. rewrite is_prefix_app.
  cbn [andb]. apply negb_true_iff. unfold pathlib.eqb.
  destruct (list_eq_dec string_dec root q) as [E |]; [| reflexivity].
  rewrite <- E in Hq. apply (f_equal (@length string)) in Hq.
  rewrite length_app in Hq. simpl in Hq. lia.
Qed.

(** Where every binding below [path] is a directory, no path below [path]
    is a regular file. *)
Lemma no_file_below (fs0 : FileSystem.FS) (path : Path) :
  (forall q n, In (q, n) fs0 -> FileSystem.below path q = true ->
               FileSystem.is_dir n = true) ->
  forall q, FileSystem.below path q = true -> FileSystem.is_file fs0 q = false.
Proof.
  intros Hall q Hq. unfold FileSystem.is_file, FileSystem.find.
  destruct (FileSystem.lookup fs0 q) as [n |] eqn:E.
  - rewrite (Hall q n (lookup_In _ _ _ E) Hq). reflexivity.
  - destruct (FileSystem.anchored q); reflexivity.
Qed.

Lemma filter_none {A} (f : A -> bool) (l : list A) :
  (forall x, In x l -> f x = false) -> filter f l = [].
Proof.
  induction l as [| x l IH]; intros H; [reflexivity |]. simpl.
  rewrite (H x (or_introl eq_refl)). apply IH. intros y Hy.
  apply H. right. exact Hy.
Qed.

(** X4.  [sanitize] on a resolved root.  If the root does not exist,
    [FileNotFoundError] is raised for it.  If the root is a directory below
    which there are directories only, [sanitize] returns at once, whatever
    the policy: nothing is moved, printed or recorded, and the empty
    directories stay even when the policy asks for their cleanup.  In both
    cases the world is exactly as before. *)
Theorem X4_sanitize_missing_root_and_no_files :
  forall (TODAY : string) (off now : Z) (rng : nat -> Z) (root : string)
         (opts : sanitizer.SanitizerOptions) (w : world),
    resolved (pathlib.of_str root) = true ->
    (FileSystem.exists_ (w_fs w) (pathlib.of_str root) = false ->
     sanitizer.sanitize TODAY off now rng root opts w =
     (inl (FileNotFoundError (pathlib.str (pathlib.of_str root))), w)) /\
    (FileSystem.is_directory (w_fs w) (pathlib.of_str root) = true ->
     (forall q n, In (q, n) (w_fs w) ->
                  FileSystem.below (pathlib.of_str root) q = true ->
                  FileSystem.is_dir n = true) ->
     sanitizer.sanitize TODAY off now rng root opts w = (inr tt, w)).
Proof.
  intros TODAY off now rng root opts w _.
  split.
  - unfold sanitizer.sanitize, bind, ask_fs. intros ->. reflexivity.
  - intros Hdir Hall.
    pose proof (no_file_below (w_fs w) (pathlib.of_str root) Hall) as Hnf.
    assert (Hg : sanitizer._gather_files (pathlib.of_str root)
                   (sanitizer.recursive opts) w = (inr [], w)).
    { unfold sanitizer._gather_files.
      destruct (sanitizer.recursive opts).
      - rewrite filter_none; [reflexivity |]. intros q Hq.
        unfold FileSystem.rglob in Hq. rewrite Hdir in Hq.
        apply in_map_iff in Hq. destruct Hq as ([k n] & <- & Hk).
        apply filter_In in Hk. destruct Hk as [_ Hb]. exact (Hnf _ Hb).
      - unfold FileSystem.iterdir. unfold FileSystem.is_directory in Hdir.
        destruct (FileSystem.find (w_fs w) (pathlib.of_str root)) as [m |];
          [| discriminate].
        rewrite Hdir. rewrite filter_none; [reflexivity |]. intros q Hq.
        apply in_map_iff in Hq. destruct Hq as ([k n] & <- & Hk).
        apply filter_In in Hk. destruct Hk as [_ Hc].
        exact (Hnf _ (child_below _ _ Hc)). }
    assert (Hex : FileSystem.exists_ (w_fs w) (pathlib.of_str root) = true).
    { unfold FileSystem.exists_. unfold FileSystem.is_directory in Hdir.
      destruct (FileSystem.find (w_fs w) (pathlib.of_str root));
        [reflexivity | discriminate]. }
    unfold sanitizer.sanitize, bind, ask_fs. rewrite Hex. cbn [negb].
    cbv beta iota. rewrite Hg. reflexivity.
Qed.

(** Witness of X4: [/root] holds an empty directory inside another and no
    file; the policy has every flag on, the cleanup included. *)
Lemma X4_sanitize_edges_witness :
  sanitizer.sanitize "010124" 0 1 Scenario.no_rng "/nowhere"
    Scenario.everything Scenario.only_directories =
    (inl (FileNotFoundError "/nowhere"), Scenario.only_directories) /\
  sanitizer.sanitize "010124" 0 1 Scenario.no_rng "/root"
    Scenario.everything Scenario.only_directories =
    (inr tt, Scenario.only_directories).
Proof.
  split.
  - exact (proj1 (X4_sanitize_missing_root_and_no_files "010124" 0 1
                    Scenario.no_rng "/nowhere" Scenario.everything
                    Scenario.only_directories eq_refl)
             eq_refl).
  - apply (proj2 (X4_sanitize_missing_root_and_no_files "010124" 0 1
                    Scenario.no_rng "/root" Scenario.everything
                    Scenario.only_directories eq_refl));
      [reflexivity |].
    intros q n Hin _. simpl in Hin.
    destruct Hin as [H | [H | [H | []]]]; injection H as _ <-; reflexivity.
Defined.

(** ** Gathering, choosing the entry to undo, previewing *)

Lemma is_file_not_dir (fs0 : FileSystem.FS) (q : Path) :
  FileSystem.is_file fs0 q = true ->
  exists n, FileSystem.find fs0 q = Some n /\ FileSystem.is_dir n = false.
Proof.
  unfold FileSystem.is_file. destruct (FileSystem.find fs0 q) as [n |];
    [| discriminate].
  intros H. exists n. split; [reflexivity |]. apply negb_true_iff. exact H.
Qed.

(** X17.  [_gather_files] changes nothing and returns regular files only,
    each bound in the store: those directly in the root when not recursive,
    those anywhere below it when recursive.  A directory is never a
    candidate, and neither is the root. *)
Theorem X17_gather_files_returns_regular_files_below_root :
  forall (root : Path) (recursive : bool) (w w' : world) (files : list Path),
    sanitizer._gather_files root recursive w = (inr files, w') ->
    w' = w /\
    forall q, In q files ->
      (exists n, FileSystem.find (w_fs w) q = Some n /\
                 FileSystem.is_dir n = false) /\
      In q (map fst (w_fs w)) /\
      q <> root /\
      (if recursive then pathlib.is_prefix root q = true
       else pathlib.parent q = root).
Proof.
  intros root recursive w w' files H. unfold sanitizer._gather_files in H.
  destruct recursive.
  - injection H as <- <-. split; [reflexivity |]. intros q Hq.
    apply filter_In in Hq. destruct Hq as [Hq Hfile].
    unfold FileSystem.rglob in Hq.
    destruct (FileSystem.is_directory (w_fs w) root); [| contradiction].
    apply in_map_iff in Hq. destruct Hq as ([k n] & <- & Hk).
    apply filter_In in Hk. destruct Hk as [Hin Hb]. cbn [fst] in *.
    unfold FileSystem.below in Hb. apply andb_prop in Hb.
    destruct Hb as [Hp Hne]. apply negb_true_iff in Hne.
    split; [exact (is_file_not_dir _ _ Hfile) |].
    split; [apply in_map_iff; exists (k, n); split; [reflexivity | exact Hin] |].
    split; [| exact Hp].
    intros ->. rewrite pathlib_eqb_refl in Hne. discriminate.
  - destruct (FileSystem.iterdir (w_fs w) root) as [e | l] eqn:Ei;
      [discriminate |].
    injection H as <- <-. split; [reflexivity |]. intros q Hq.
    apply filter_In in Hq. destruct Hq as [Hq Hfile].
    unfold FileSystem.iterdir in Ei.
    destruct (FileSystem.find (w_fs w) root) as [m |]; [| discriminate].
    destruct (FileSystem.is_dir m); [| discriminate].
    injection Ei as <-.
    apply in_map_iff in Hq. destruct Hq as ([k n] & <- & Hk).
    apply filter_In in Hk. destruct Hk as [Hin Hc]. cbn [fst] in *.
    pose proof (child_of_recompose root k Hc) as Hk.
    unfold FileSystem.child_of in Hc. apply andb_prop in Hc.
    destruct Hc as [Hp _]. apply pathlib_eqb_eq in Hp.
    split; [exact (is_file_not_dir _ _ Hfile) |].
    split; [apply in_map_iff; exists (k, n); split; [reflexivity | exact Hin] |].
    split; [| exact Hp].
    intros Heq. rewrite Heq in Hk at 1.
    apply (f_equal (@length string)) in Hk. rewrite length_app in Hk.
    simpl in Hk. lia.
Qed.

(** Witness of X17: a file of the recursive gathering in [same_name]. *)
Lemma X17_gather_files_witness :
  (exists n, FileSystem.find (w_fs Scenario.same_name)
               ["/"; "root"; "y"; "a.txt"]%string = Some n /\
             FileSystem.is_dir n = false) /\
  In ["/"; "root"; "y"; "a.txt"]%string (map fst (w_fs Scenario.same_name)) /\
  ["/"; "root"; "y"; "a.txt"]%string <> ["/"; "root"]%string /\
  pathlib.is_prefix ["/"; "root"]%string ["/"; "root"; "y"; "a.txt"]%string
    = true.
Proof.
  apply (proj2 (X17_gather_files_returns_regular_files_below_root
                  ["/"; "root"]%string true Scenario.same_name
                  Scenario.same_name
                  [["/"; "root"; "x"; "a.txt"]; ["/"; "root"; "y"; "a.txt"]]%string
                  eq_refl)
           ["/"; "root"; "y"; "a.txt"]%string).
  right. left. reflexivity.
Defined.

Lemma last_sanitize_index_some (l : list entry) :
  forall i j,
    sanitizer.last_sanitize_index i l = Some j ->
    exists before e after_,
      l = before ++ e :: after_ /\ j = (i + length before)%nat /\
      entry_op e = "sanitize"%string /\
      Forall (fun e => entry_op e <> "sanitize"%string) after_.
Proof.
  induction l as [| e l IH]; intros i j H; [discriminate |].
  cbn [sanitizer.last_sanitize_index] in H.
  destruct (sanitizer.last_sanitize_index (S i) l) as [k |] eqn:E.
  - injection H as <-.
    destruct (IH (S i) k E) as (before & e' & after_ & -> & -> & He & Ha).
    exists (e :: before), e', after_. simpl.
    repeat split; [f_equal; lia | exact He | exact Ha].
  - destruct (String.eqb_spec (entry_op e) "sanitize") as [He | He];
      [| discriminate].
    injection H as <-. exists [], e, l. simpl.
    repeat split; [lia | exact He |].
    apply (last_sanitize_index_none (S i)). exact E.
Qed.

(** X18.  The entry [revert_last_sanitize] undoes is the last one tagged
    "sanitize": the index it computes splits the journal into the entries
    before, that entry, and later entries none of which is tagged
    "sanitize"; there is no index exactly when no entry is tagged so. *)
Theorem X18_last_sanitize_index_is_the_last_sanitize_entry :
  forall (l : list entry),
    match sanitizer.last_sanitize_index 0 l with
    | Some j =>
        exists before e after_,
          l = before ++ e :: after_ /\ j = length before /\
          entry_op e = "sanitize"%string /\
          Forall (fun e => entry_op e <> "sanitize"%string) after_ /\
          pop_at j l = Some (before ++ after_, e)
    | None => Forall (fun e => entry_op e <> "sanitize"%string) l
    end.
Proof.
  intros l. destruct (sanitizer.last_sanitize_index 0 l) as [j |] eqn:E.
  - destruct (last_sanitize_index_some l 0 j E)
      as (before & e & after_ & -> & -> & He & Ha).
    exists before, e, after_. simpl.
    repeat split; [exact He | exact Ha | apply pop_at_app].
  - apply (last_sanitize_index_none 0). exact E.
Qed.





(** Witness of X11: the date of [a.txt] in the scenario of two files, with
    [keep_date_created] set and [keep_date_saved] not. *)
Lemma X11_keep_date_created_witness :
  let a := Scenario.file "A" Scenario.noon_2024_01_01 7 in
  let w := Scenario.fresh (Scenario.two_files a (Scenario.file "B" 0 0)) in
  sanitizer._file_date 0 (w_fs w) ["/"; "root"; "a.txt"]%string
    (sanitizer.mk_opts false true true false true false false false) =
  inr (datetime.fromtimestamp 0 Scenario.noon_2024_01_01).
Proof.
  intros a w.
  exact (proj2 (X11_keep_date_created_is_ignored "010124" 0 1 Scenario.no_rng
                  "/root" false true true false true false false false false w)
           ["/"; "root"; "a.txt"]%string a eq_refl).
Defined.
